(** * wifi_connect.py: the captive-portal onboarding tool

    A shallow embedding of [src/wifi_connect.py] (class [WiFiConnect]) and
    the properties of its scan parser, its join routine, its HTTP handlers
    and its process-wide status flags.

    Conventions of the model.
    - A Python [str] is a [string]; every character stands for the code
      point with the same number (U+0000 .. U+00FF).  Text with code points
      above U+00FF is outside the model.
    - The external tool ([nmcli]) is an oracle [env]: it tells, for the
      n-th effect of the process and an argument vector, how the child
      process behaves.
      A child process ends after a number of time units, and
      [subprocess.run] with [timeout=t] raises [TimeoutExpired] when that
      number is above [t]; it can also fail to run the tool at all.
      Every child process is taken to end: a tool that never ends, which
      would block every call but the join for ever, is outside the model,
      and nothing here says that a call returns in that case.
    - Python exceptions are values of [exn]; a computation that may raise
      returns a [result].
    - A request, the run of the background thread and an interrupt are
      each taken as one step of the process.
    - Calls to [logger] do not change any state and are left out. *)

From Stdlib Require Import ZArith Ascii String.
From stdpp Require Import gmap strings list sorting pretty.

Local Open Scope string_scope.
Local Open Scope Z_scope.
Local Open Scope list_scope.

(** ** Exceptions and results *)

Inductive exn : Type :=
  | TimeoutExpired                (* subprocess.TimeoutExpired *)
  | CalledProcessError (rc : Z)   (* subprocess.CalledProcessError *)
  | ValueError                    (* int() on a string it cannot read *)
  | TypeError                     (* a non-str element in an argument vector *)
  | AttributeError                (* .get on an object that is not a dict *)
  | OtherError (msg : string).    (* OSError, UnicodeDecodeError, BadRequest, ... *)

Inductive result (A : Type) : Type :=
  | Ok (a : A)
  | Raise (e : exn).
Arguments Ok {A} a.
Arguments Raise {A} e.

(** ** Python string primitives *)

Module Py.

Definition ord (c : ascii) : N := N_of_ascii c.

(** [str.isspace] of one character: U+0009..U+000D, U+001C..U+0020,
    U+0085 and U+00A0. *)
Definition isspace (c : ascii) : bool :=
  let n := ord c in
  ((9 <=? n) && (n <=? 13) || (28 <=? n) && (n <=? 32)
   || (n =? 133) || (n =? 160))%N.

(** One character of the decimal class Nd: only '0'..'9' below U+0100. *)
Definition isdecimal_char (c : ascii) : bool :=
  let n := ord c in ((48 <=? n) && (n <=? 57))%N.

(** [str.isdigit] of one character: the decimal digits and the
    superscripts U+00B2, U+00B3 and U+00B9. *)
Definition isdigit_char (c : ascii) : bool :=
  let n := ord c in
  (isdecimal_char c || (n =? 178) || (n =? 179) || (n =? 185))%N.

Fixpoint forall_chars (p : ascii → bool) (s : string) : bool :=
  match s with
  | EmptyString => true
  | String c s' => p c && forall_chars p s'
  end.

Definition nonempty (s : string) : bool :=
  match s with EmptyString => false | String _ _ => true end.

(** [s.isdigit()]: at least one character and all of them digits. *)
Definition isdigit (s : string) : bool := nonempty s && forall_chars isdigit_char s.

(** [s.lstrip()] *)
Fixpoint lstrip (s : string) : string :=
  match s with
  | EmptyString => EmptyString
  | String c s' => if isspace c then lstrip s' else s
  end.

(** [s.rstrip()] *)
Fixpoint rstrip (s : string) : string :=
  match s with
  | EmptyString => EmptyString
  | String c s' =>
      match rstrip s' with
      | EmptyString => if isspace c then EmptyString else String c EmptyString
      | r => String c r
      end
  end.

(** [s.strip()] *)
Definition strip (s : string) : string := rstrip (lstrip s).

(** [s.split(sep)] for a separator of one character: never empty. *)
Fixpoint split (sep : ascii) (s : string) : list string :=
  match s with
  | EmptyString => [EmptyString]
  | String c s' =>
      if Ascii.eqb c sep then EmptyString :: split sep s'
      else match split sep s' with
           | [] => [String c EmptyString]
           | p :: ps => String c p :: ps
           end
  end.

Definition digit_value (c : ascii) : Z := Z.of_N (ord c) - 48.

Fixpoint int_loop (acc : Z) (s : string) : result Z :=
  match s with
  | EmptyString => Ok acc
  | String c s' =>
      if isdecimal_char c then int_loop (10 * acc + digit_value c) s'
      else Raise ValueError
  end.

(** [sys.int_info.default_max_str_digits]: the longest string of digits
    [int] converts; the program leaves the default in place. *)
Definition max_str_digits : N := 4300.

(** [int(s)] for a string [s] that passes [isdigit]: the value in base
    ten when every character is a decimal digit and there are no more
    than [max_str_digits] of them (leading zeros count); [ValueError]
    when a superscript digit occurs or the string is longer. *)
Definition int (s : string) : result Z :=
  if nonempty s && (N.of_nat (String.length s) <=? max_str_digits)%N
  then int_loop 0 s
  else Raise ValueError.

(** [sub in s] *)
Fixpoint contains (sub s : string) : bool :=
  String.prefix sub s ||
  match s with
  | EmptyString => false
  | String _ s' => contains sub s'
  end.

End Py.

(** ** Scan records *)

Record network : Type := Network {
  ssid : string;
  signal : Z;
  security : string
}.

(** [signal = int(parts[1]) if parts[1].isdigit() else -100] *)
Definition parse_signal (field : string) : result Z :=
  if Py.isdigit field then Py.int field else Ok (-100).

(** [security = parts[2].strip() if parts[2] else 'Open'] *)
Definition parse_security (field : string) : string :=
  if Py.nonempty field then Py.strip field else "Open".

(** The body of the [for line in ...] loop of [scan_wifi_networks]; the
    loop state is the list [networks] and the set [seen_ssids]. *)
Definition scan_line (line : string) (st : list network * gset string)
  : result (list network * gset string) :=
  let '(networks, seen_ssids) := st in
  if negb (Py.nonempty line) then Ok st
  else
    match Py.split ":" line with
    | p0 :: p1 :: p2 :: _ =>
        let ssid := Py.strip p0 in
        match parse_signal p1 with
        | Raise e => Raise e
        | Ok signal =>
            let security := parse_security p2 in
            if Py.nonempty ssid && negb (bool_decide (ssid ∈ seen_ssids)) then
              Ok (networks ++ [Network ssid signal security], {[ ssid ]} ∪ seen_ssids)
            else Ok st
        end
    | _ => Ok st
    end.

Fixpoint scan_lines (lines : list string) (st : list network * gset string)
  : result (list network * gset string) :=
  match lines with
  | [] => Ok st
  | line :: rest =>
      match scan_line line st with
      | Raise e => Raise e
      | Ok st' => scan_lines rest st'
      end
  end.

(** [networks.sort(key=lambda x: x['signal'], reverse=True)]: a stable
    sort, strongest first; records of equal signal keep their order. *)
Fixpoint insert_desc (x : network) (l : list network) : list network :=
  match l with
  | [] => [x]
  | y :: l' => if signal x <? signal y then y :: insert_desc x l' else x :: y :: l'
  end.

Definition sort_by_signal (l : list network) : list network :=
  foldr insert_desc [] l.

(** Lines 559-583: what [scan_wifi_networks] does with the tool's output. *)
Definition parse_scan_output (stdout : string) : result (list network) :=
  match scan_lines (Py.split "010" (Py.strip stdout)) ([], ∅) with
  | Raise e => Raise e
  | Ok (networks, _) => Ok (sort_by_signal networks)
  end.


(** ** Python values that travel through a request *)

(** A value taken out of the JSON body.  Of a list, a nested object or a
    float only the truth value and the text [str] gives are observed. *)
Inductive pyval : Type :=
  | PNone
  | PBool (b : bool)
  | PInt (z : Z)
  | PStr (s : string)
  | POther (truth : bool) (text : string).

Coercion PStr : string >-> pyval.

(** [bool(v)], as [if v:] and [not v] use it *)
Definition truthy (v : pyval) : bool :=
  match v with
  | PNone => false
  | PBool b => b
  | PInt z => negb (z =? 0)
  | PStr s => Py.nonempty s
  | POther t _ => t
  end.

(** [str(v)], as an f-string renders it *)
Definition py_str (v : pyval) : string :=
  match v with
  | PNone => "None"
  | PBool true => "True"
  | PBool false => "False"
  | PInt z => pretty z
  | PStr s => s
  | POther _ text => text
  end.

(** What [request.get_json()] gives when it does not raise: a dict, or
    some other JSON document (a list, a string, a number, null). *)
Inductive document : Type :=
  | Dict (d : gmap string pyval)
  | NotDict.

(** ** The environment and the process state *)

(** How a child process started by [subprocess.run] behaves. *)
Inductive proc : Type :=
  | Exits (secs : Z) (rc : Z) (out err : string)
      (* it ends after [secs] time units with this exit status and output *)
  | Fails (msg : string).
      (* [subprocess.run] itself raises: the tool cannot be started, or
         its output is not text *)

Definition environment : Type := nat → list string → proc.

Record CompletedProcess : Type := Completed {
  returncode : Z;
  stdout : string;
  stderr : string
}.

(** The attributes [__init__] gives the object. *)
Record WiFiConnect : Type := Self {
  hotspot_name : string;
  hotspot_password : string;
  interface : string;
  ap_ip : string;
  is_hotspot_active : bool;
  connection_status : string
}.

Definition set_is_hotspot_active (b : bool) (o : WiFiConnect) : WiFiConnect :=
  Self (hotspot_name o) (hotspot_password o) (interface o) (ap_ip o) b (connection_status o).

Definition set_connection_status (v : string) (o : WiFiConnect) : WiFiConnect :=
  Self (hotspot_name o) (hotspot_password o) (interface o) (ap_ip o) (is_hotspot_active o) v.

(** [WiFiConnect.__init__] *)
Definition init : WiFiConnect :=
  Self "Setup-Robot-WiFi" "" "wlan0" "10.42.0.1" false "disconnected".

(** The function a background thread runs. *)
Inductive target : Type :=
  | shutdown_hotspot_delayed_target.

(** What the process does to the world outside. *)
Inductive event : Type :=
  | EvRun (argv : list string) (timeout : option Z)  (* subprocess.run *)
  | EvSleep (secs : Z)                               (* time.sleep *)
  | EvThread (t : target)                            (* threading.Thread(...).start() *)
  | EvExit (code : Z).                               (* os._exit / end of the main thread *)

Record world : Type := World {
  self : WiFiConnect;
  trace : list event;      (* every effect so far, oldest first *)
  pending : list target;   (* threads started and not yet run *)
  exited : bool            (* the process has ended *)
}.

Definition with_self (f : WiFiConnect → WiFiConnect) (w : world) : world :=
  World (f (self w)) (trace w) (pending w) (exited w).

Definition emit (e : event) (w : world) : world :=
  World (self w) (trace w ++ [e]) (pending w) (exited w).

(** ** A state and exception monad for the methods *)

Definition M (A : Type) : Type := world → result A * world.

Definition ret {A} (a : A) : M A := fun w => (Ok a, w).

Definition raise {A} (e : exn) : M A := fun w => (Raise e, w).

Definition bind {A B} (m : M A) (k : A → M B) : M B :=
  fun w =>
    match m w with
    | (Ok a, w') => k a w'
    | (Raise e, w') => (Raise e, w')
    end.

(** [try: m except Exception as e: h e] *)
Definition try_except {A} (m : M A) (h : exn → M A) : M A :=
  fun w =>
    match m w with
    | (Ok a, w') => (Ok a, w')
    | (Raise e, w') => h e w'
    end.

Definition get_self : M WiFiConnect := fun w => (Ok (self w), w).

Definition update_self (f : WiFiConnect → WiFiConnect) : M unit :=
  fun w => (Ok tt, with_self f w).

Definition lift {A} (r : result A) : M A := fun w => (r, w).

Notation "'let*' x ':=' m 'in' k" := (bind m (fun x => k))
  (at level 10, x name, m at level 100, k at level 200).
Notation "m ';;' k" := (bind m (fun _ => k))
  (at level 100, k at level 200, right associativity).

(** [time.sleep(secs)] *)
Definition sleep (secs : Z) : M unit := fun w => (Ok tt, emit (EvSleep secs) w).

(** [threading.Thread(target=t, daemon=True).start()]: the thread is
    recorded as pending and the caller goes on at once. *)
Definition thread_start (t : target) : M unit :=
  fun w => (Ok tt, World (self w) (trace w ++ [EvThread t]) (pending w ++ [t]) (exited w)).

(** [os._exit(code)] *)
Definition os_exit (code : Z) : M unit :=
  fun w => (Ok tt, World (self w) (trace w ++ [EvExit code]) (pending w) true).

(** The strings of an argument vector; [None] when an element is not a
    [str], which makes [subprocess.run] raise [TypeError] before any
    process is started. *)
Fixpoint argv_strings (argv : list pyval) : option (list string) :=
  match argv with
  | [] => Some []
  | PStr s :: rest =>
      match argv_strings rest with
      | Some ss => Some (s :: ss)
      | None => None
      end
  | _ :: _ => None
  end.

(** An argument vector of string literals *)
Definition args (l : list string) : list pyval := PStr <$> l.

Section Methods.

Variable env : environment.

(** [subprocess.run(argv, capture_output=True, text=True, timeout=...,
    check=...)] *)
Definition subprocess_run (argv : list pyval) (timeout : option Z) (check : bool)
  : M CompletedProcess :=
  match argv_strings argv with
  | None => raise TypeError
  | Some words =>
      fun w =>
        let w' := emit (EvRun words timeout) w in
        match env (length (trace w)) words with
        | Fails msg => (Raise (OtherError msg), w')
        | Exits secs rc out err =>
            if match timeout with Some t => t <? secs | None => false end
            then (Raise TimeoutExpired, w')
            else if check && negb (rc =? 0)
                 then (Raise (CalledProcessError rc), w')
                 else (Ok (Completed rc out err), w')
        end
  end.

Definition scan_cmd : list pyval :=
  args ["nmcli"; "-t"; "-f"; "SSID,SIGNAL,SECURITY"; "device"; "wifi"; "list"].

(** [scan_wifi_networks] *)
Definition scan_wifi_networks : M (list network) :=
  try_except
    (let* result := subprocess_run scan_cmd None true in
     lift (parse_scan_output (stdout result)))
    (fun e =>
       match e with
       | CalledProcessError _ => ret []
       | _ => raise e
       end).

Definition join_cmd (ssid password : pyval) : list pyval :=
  if truthy password then
    args ["nmcli"; "device"; "wifi"; "connect"] ++ [ssid] ++ args ["password"] ++ [password]
  else
    args ["nmcli"; "device"; "wifi"; "connect"] ++ [ssid].

(** [connect_to_network] *)
Definition connect_to_network (ssid password : pyval) : M bool :=
  try_except
    (subprocess_run
       (args ["nmcli"; "connection"; "delete"; "id"] ++ [ssid])
       None false ;;
     sleep 1 ;;
     let cmd := join_cmd ssid password in
     let* result := subprocess_run cmd (Some 30) false in
     if returncode result =? 0 then
       update_self (set_connection_status "connected") ;;
       sleep 2 ;;
       let* o := get_self in
       let* ip_check :=
         subprocess_run (args ["nmcli"; "device"; "show"; interface o])
           None false in
       if Py.contains "IP4.ADDRESS" (stdout ip_check) then ret true
       else ret true
     else ret false)
    (fun e => ret false).

(** [create_hotspot] *)
Definition create_hotspot : M bool :=
  try_except
    (subprocess_run (args ["nmcli"; "connection"; "delete"; "Hotspot"])
       None false ;;
     let* o := get_self in
     let* result :=
       subprocess_run
         (args ["nmcli"; "connection"; "add"; "type"; "wifi";
                "ifname"; interface o; "con-name"; "Hotspot";
                "autoconnect"; "yes"; "ssid"; hotspot_name o])
         None false in
     if negb (returncode result =? 0) then
       raise (OtherError ("Failed to create hotspot connection: " +:+ stderr result))
     else
       subprocess_run
         (args ["nmcli"; "connection"; "modify"; "Hotspot";
                "802-11-wireless.mode"; "ap"; "802-11-wireless.band"; "bg";
                "ipv4.method"; "shared"])
         None true ;;
       let* result :=
         subprocess_run (args ["nmcli"; "connection"; "up"; "Hotspot"])
           None false in
       if returncode result =? 0 then
         update_self (set_is_hotspot_active true) ;;
         ret true
       else raise (OtherError ("Failed to activate hotspot: " +:+ stderr result)))
    (fun e => ret false).

(** [shutdown_hotspot] *)
Definition shutdown_hotspot : M unit :=
  try_except
    (subprocess_run (args ["nmcli"; "connection"; "down"; "Hotspot"])
       None false ;;
     subprocess_run (args ["nmcli"; "connection"; "delete"; "Hotspot"])
       None false ;;
     update_self (set_is_hotspot_active false))
    (fun e => ret tt).

(** [shutdown_hotspot_delayed] *)
Definition shutdown_hotspot_delayed : M unit :=
  sleep 5 ;;
  shutdown_hotspot ;;
  os_exit 0.

End Methods.

(** ** The HTTP service *)

Record request : Type := Request {
  method : string;
  path : string;
  get_json : result document   (* what [request.get_json()] gives or raises *)
}.

(** A value inside a JSON envelope. *)
Inductive jvalue : Type :=
  | JVal (v : pyval)
  | JNetworks (l : list network)
  | JExn (e : exn).               (* [str(e)] *)

Inductive response : Type :=
  | Html                                     (* [html_content], status 200 *)
  | Json (fields : list (string * jvalue))   (* [jsonify({...})], status 200 *)
  | StaticFile (name : string)               (* Flask's own /static/ route *)
  | OptionsResponse                          (* Flask's automatic OPTIONS answer *)
  | NotFound                                 (* 404: no rule for the path *)
  | MethodNotAllowed.                        (* 405 *)

(** The requests the script of the portal page sends: [fetch('/scan')],
    [fetch('/connect', {method: 'POST'})] and, from [shutdownPortal],
    [fetch('/shutdown', {method: 'POST'})]. *)
Definition page_fetches : list (string * string) :=
  [("GET", "/scan"); ("POST", "/connect"); ("POST", "/shutdown")].

(** The view functions [setup_routes] defines. *)
Inductive endpoint : Type :=
  | ep_index
  | ep_portal
  | ep_scan_networks
  | ep_connect_wifi
  | ep_get_status.

(** The rules [setup_routes] registers: path, [methods=], view. *)
Definition url_map : list (string * list string * endpoint) :=
  [("/", ["GET"], ep_index);
   ("/portal", ["GET"], ep_portal);
   ("/scan", ["GET"], ep_scan_networks);
   ("/connect", ["POST"], ep_connect_wifi);
   ("/status", ["GET"], ep_get_status)].

Definition mem (x : string) (l : list string) : bool := existsb (String.eqb x) l.

(** [data.get(key, default)] *)
Definition dict_get (data : document) (key : string) (dflt : pyval) : M pyval :=
  match data with
  | Dict d => ret (default dflt (d !! key))
  | NotDict => raise AttributeError
  end.

Section Service.

Variable env : environment.

(** [render_portal_page] *)
Definition render_portal_page : M response := ret Html.

(** [scan_networks], GET /scan *)
Definition scan_networks : M response :=
  try_except
    (let* networks := scan_wifi_networks env in
     ret (Json [("success", JVal (PBool true)); ("networks", JNetworks networks)]))
    (fun e => ret (Json [("success", JVal (PBool false)); ("error", JExn e)])).

(** [connect_wifi], POST /connect *)
Definition connect_wifi (req : request) : M response :=
  try_except
    (let* data := lift (get_json req) in
     let* ssid := dict_get data "ssid" PNone in
     let* password := dict_get data "password" (PStr "") in
     if negb (truthy ssid) then
       ret (Json [("success", JVal (PBool false)); ("error", JVal (PStr "SSID is required"))])
     else
       let* success := connect_to_network env ssid password in
       if success then
         thread_start shutdown_hotspot_delayed_target ;;
         ret (Json [("success", JVal (PBool true));
                    ("message", JVal (PStr ("Successfully connected to " +:+ py_str ssid
                                            +:+ "! Portal will shut down in a few seconds.")));
                    ("connected", JVal (PBool true));
                    ("ssid", JVal ssid)])
       else
         ret (Json [("success", JVal (PBool false));
                    ("error", JVal (PStr "Failed to connect to network. Please check your credentials and try again."))]))
    (fun e => ret (Json [("success", JVal (PBool false)); ("error", JExn e)])).

(** [get_status], GET /status *)
Definition get_status : M response :=
  let* o := get_self in
  ret (Json [("hotspot_active", JVal (PBool (is_hotspot_active o)));
             ("connection_status", JVal (PStr (connection_status o)));
             ("hotspot_name", JVal (PStr (hotspot_name o)))]).

Definition view (ep : endpoint) (req : request) : M response :=
  match ep with
  | ep_index => render_portal_page
  | ep_portal => render_portal_page
  | ep_scan_networks => scan_networks
  | ep_connect_wifi => connect_wifi req
  | ep_get_status => get_status
  end.

(** The file name of a path under Flask's [/static/<path:filename>]. *)
Definition static_name (p : string) : option string :=
  if String.prefix "/static/" p && (8 <? String.length p)%nat
  then Some (String.substring 8 (String.length p - 8) p)
  else None.

(** How Flask answers one request: the rule is found by its path; a GET
    rule also answers HEAD, every rule answers OPTIONS by itself, any
    other method gets 405, and a path without a rule gets 404. *)
Definition dispatch (req : request) : M response :=
  match List.find (fun r => String.eqb (fst (fst r)) (path req)) url_map with
  | Some (_, methods, ep) =>
      if mem (method req) methods then view ep req
      else if String.eqb (method req) "HEAD" && mem "GET" methods then view ep req
      else if String.eqb (method req) "OPTIONS" then ret OptionsResponse
      else ret MethodNotAllowed
  | None =>
      match static_name (path req) with
      | Some name =>
          if mem (method req) ["GET"; "HEAD"] then ret (StaticFile name)
          else if String.eqb (method req) "OPTIONS" then ret OptionsResponse
          else ret MethodNotAllowed
      | None => ret NotFound
      end
  end.

(** ** The life of the process *)

Definition run_target (t : target) : M unit :=
  match t with
  | shutdown_hotspot_delayed_target => shutdown_hotspot_delayed env
  end.

(** [run] up to [app.run]: without a hotspot the [finally] clause runs
    and the process ends. *)
Definition run_start : M unit :=
  let* created := create_hotspot env in
  if created then ret tt
  else shutdown_hotspot env ;; os_exit 0.

(** What can happen while [app.run] serves. *)
Inductive op : Type :=
  | Serve (req : request)   (* one request is answered *)
  | TimerFires              (* the oldest pending thread runs *)
  | Interrupt.              (* KeyboardInterrupt: [finally] and the end of [run] *)

(** One operation, taken as a whole; nothing happens once the process
    has ended. *)
Definition step (o : op) (w : world) : world :=
  if exited w then w
  else
    match o with
    | Serve req => snd (dispatch req w)
    | TimerFires =>
        match pending w with
        | [] => w
        | t :: rest => snd (run_target t (World (self w) (trace w) rest (exited w)))
        end
    | Interrupt => snd ((shutdown_hotspot env ;; os_exit 0) w)
    end.

Definition start : world := World init [] [] false.

(** Every state the process goes through, oldest first. *)
Fixpoint states (w : world) (ops : list op) : list world :=
  match ops with
  | [] => [w]
  | o :: rest => w :: states (step o w) rest
  end.

Definition lifetime (ops : list op) : list world :=
  start :: states (snd (run_start start)) ops.

End Service.

(** ** Notions the properties are stated with *)

(** The record one line of the tool's output stands for, before any
    de-duplication: [None] for an empty line or a line with fewer than
    three fields. *)
Definition line_record (line : string) : result (option network) :=
  if negb (Py.nonempty line) then Ok None
  else
    match Py.split ":" line with
    | p0 :: p1 :: p2 :: _ =>
        match parse_signal p1 with
        | Raise e => Raise e
        | Ok sg => Ok (Some (Network (Py.strip p0) sg (parse_security p2)))
        end
    | _ => Ok None
    end.

Fixpoint records_of_lines (lines : list string) : list network :=
  match lines with
  | [] => []
  | line :: rest =>
      match line_record line with
      | Ok (Some r) => r :: records_of_lines rest
      | _ => records_of_lines rest
      end
  end.

(** The records of a scan output, in the order the tool printed them. *)
Definition raw_records (out : string) : list network :=
  records_of_lines (Py.split "010" (Py.strip out)).

(** The first record of a list that carries a given name. *)
Definition first_named (name : string) (recs : list network) : option network :=
  List.find (fun x => String.eqb (ssid x) name) recs.

(** Strongest first: no record is weaker than one that follows it. *)
Definition descending (l : list network) : Prop :=
  StronglySorted (fun a b => signal b ≤ signal a) l.

(** Keeping the first record of every non-empty name not yet seen. *)
Fixpoint keep_first (recs : list network) (seen : gset string) : list network :=
  match recs with
  | [] => []
  | r :: rest =>
      if Py.nonempty (ssid r) && negb (bool_decide (ssid r ∈ seen))
      then r :: keep_first rest ({[ ssid r ]} ∪ seen)
      else keep_first rest seen
  end.

(** How often a list of statuses that follows the status [prev] steps
    from [a] to [b]. *)
Fixpoint transitions_from (a b prev : string) (l : list string) : nat :=
  match l with
  | [] => 0%nat
  | y :: rest =>
      ((if String.eqb prev a && String.eqb y b then 1 else 0)
       + transitions_from a b y rest)%nat
  end.

(** How often a list of statuses steps from [a] to [b]. *)
Definition transitions (a b : string) (l : list string) : nat :=
  match l with
  | [] => 0%nat
  | x :: rest => transitions_from a b x rest
  end.

Definition statuses (env : environment) (ops : list op) : list string :=
  (fun w => connection_status (self w)) <$> lifetime env ops.

(** The tool's output is [out] whenever it is asked to list networks. *)
Definition scanning (out : string) : environment :=
  fun _ _ => Exits 1 0 out "".

Definition nl : string := String "010" "".

(** The words of [scan_cmd]. *)
Definition scan_words : list string :=
  ["nmcli"; "-t"; "-f"; "SSID,SIGNAL,SECURITY"; "device"; "wifi"; "list"].

(** ** Concrete scan outputs *)

(** Two records named Home around one named Cafe. *)
Definition out_mixed : string :=
  "Home:40:WPA2" +:+ nl +:+ "Cafe:70:" +:+ nl +:+ "Home:90:WPA2" +:+ nl.

(** The weaker of two records with one name comes first. *)
Definition out_weak_first : string :=
  "Home:40:WPA2" +:+ nl +:+ "Home:70:WPA2".

(** The stronger of two records with one name comes first. *)
Definition out_strong_first : string :=
  "Home:70:WPA2" +:+ nl +:+ "Home:40:WPA2" +:+ nl +:+ "Cafe:20:".

(** The records (Home-5G, -40, WPA2), (Home-5G, -70, WPA2) and
    (empty name, -50, empty security), one per line and fields separated by
    colons, as [nmcli -t -f SSID,SIGNAL,SECURITY] prints records. *)
Definition out_home5g : string :=
  "Home-5G:-40:WPA2" +:+ nl +:+ "Home-5G:-70:WPA2" +:+ nl +:+ ":-50:".

(** The line the tool prints for an access point whose name is [a:²]
    (the tool writes a colon inside a value as backslash colon; the
    superscript two is U+00B2). *)
Definition out_superscript : string :=
  "a\:" +:+ String "178" "" +:+ ":80:WPA2".

(** ** Relations between the world before and after a method *)

(** A computation respects [R] when [R] relates the world it starts in to
    the world it leaves, whatever it returns or raises. *)
Definition respects (R : world → world → Prop) {A} (m : M A) : Prop :=
  ∀ w, R w (snd (m w)).

(** An update of the attributes that never takes "connected" away. *)
Definition keeps_connected (f : WiFiConnect → WiFiConnect) : Prop :=
  ∀ o, connection_status o = "connected" → connection_status (f o) = "connected".

(** Once connected, still connected. *)
Definition status_kept (w w' : world) : Prop :=
  connection_status (self w) = "connected" → connection_status (self w') = "connected".

Definition is_thread (e : event) : bool :=
  match e with EvThread _ => true | _ => false end.

(** How many threads the process has started. *)
Definition threads_started (l : list event) : nat := length (filter is_thread l).

(** No thread started, none run, and the process still alive or still
    ended. *)
Definition no_thread (w w' : world) : Prop :=
  pending w' = pending w ∧ exited w' = exited w ∧
  threads_started (trace w') = threads_started (trace w).

(** ** Concrete requests and environments *)

Definition delete_words (name : string) : list string :=
  ["nmcli"; "connection"; "delete"; "id"; name].

Definition join_words (name credential : string) : list string :=
  if Py.nonempty credential
  then ["nmcli"; "device"; "wifi"; "connect"; name; "password"; credential]
  else ["nmcli"; "device"; "wifi"; "connect"; name].

Definition show_words (iface : string) : list string :=
  ["nmcli"; "device"; "show"; iface].

(** POST /connect with the body {"ssid": name, "password": credential} *)
Definition post_connect (name credential : string) : request :=
  Request "POST" "/connect"
    (Ok (Dict (<["ssid" := PStr name]> (<["password" := PStr credential]> ∅)))).

(** POST /connect with the body {"ssid": ""} *)
Definition post_connect_empty : request :=
  Request "POST" "/connect" (Ok (Dict (<["ssid" := PStr ""]> ∅))).

(** POST /shutdown, as [shutdownPortal] of the page sends it *)
Definition post_shutdown : request := Request "POST" "/shutdown" (Ok NotDict).

(** Every command ends at once with status 0; the interface has an
    address. *)
Definition env_all_good : environment :=
  fun _ _ => Exits 3 0 "IP4.ADDRESS[1]: 192.168.1.7/24" "".

(** Every command ends at once with status 0; the interface shows no
    address yet. *)
Definition env_no_address : environment :=
  fun _ _ => Exits 3 0 "GENERAL.DEVICE: wlan0" "".

(** The join command ends with status 0 after 3 time units, and the query
    of the interface that follows cannot be run. *)
Definition env_query_fails : environment :=
  fun _ words =>
    if bool_decide (words = show_words "wlan0")
    then Fails "[Errno 12] Cannot allocate memory"
    else Exits 3 0 "" "".

(** The join command ends with status 10. *)
Definition env_join_refused : environment :=
  fun _ words =>
    if bool_decide (words = join_words "Home-5G" "secret")
    then Exits 3 10 "" "Error: Connection activation failed."
    else Exits 1 0 "" "".

(** The join command needs 45 time units. *)
Definition env_join_slow : environment :=
  fun _ words =>
    if bool_decide (words = join_words "Home-5G" "secret")
    then Exits 45 0 "" ""
    else Exits 1 0 "" "".

(** A character of the ASCII range. *)
Definition is_ascii (c : ascii) : bool := (Py.ord c <? 128)%N.

(** ** The commands of the hotspot *)

Definition hotspot_delete_words : list string :=
  ["nmcli"; "connection"; "delete"; "Hotspot"].

Definition hotspot_add_words (iface name : string) : list string :=
  ["nmcli"; "connection"; "add"; "type"; "wifi"; "ifname"; iface;
   "con-name"; "Hotspot"; "autoconnect"; "yes"; "ssid"; name].

Definition hotspot_modify_words : list string :=
  ["nmcli"; "connection"; "modify"; "Hotspot";
   "802-11-wireless.mode"; "ap"; "802-11-wireless.band"; "bg";
   "ipv4.method"; "shared"].

Definition hotspot_up_words : list string :=
  ["nmcli"; "connection"; "up"; "Hotspot"].

Definition hotspot_down_words : list string :=
  ["nmcli"; "connection"; "down"; "Hotspot"].

(** The four commands of [create_hotspot], in the order it runs them. *)
Definition create_events (o : WiFiConnect) : list event :=
  [EvRun hotspot_delete_words None;
   EvRun (hotspot_add_words (interface o) (hotspot_name o)) None;
   EvRun hotspot_modify_words None;
   EvRun hotspot_up_words None].

(** The two commands of [shutdown_hotspot], in the order it runs them. *)
Definition shutdown_events : list event :=
  [EvRun hotspot_down_words None; EvRun hotspot_delete_words None].

(** The tool can be run ([subprocess.run] does not raise). *)
Definition runs (p : proc) : Prop :=
  match p with Exits _ _ _ _ => True | Fails _ => False end.

(** The tool can be run and ends with status 0. *)
Definition succeeds (p : proc) : Prop :=
  match p with Exits _ rc _ _ => rc = 0 | Fails _ => False end.

(** ** More requests and environments *)

Definition get_request (p : string) : request := Request "GET" p (Ok NotDict).

(** POST /connect with the body {"ssid": 5} *)
Definition post_connect_number : request :=
  Request "POST" "/connect" (Ok (Dict (<["ssid" := PInt 5]> ∅))).

(** POST /connect with the body {"ssid": "Home-5G", "password": 12345678} *)
Definition post_connect_numeric_password : request :=
  Request "POST" "/connect"
    (Ok (Dict (<["ssid" := PStr "Home-5G"]> (<["password" := PInt 12345678]> ∅)))).

(** The tool cannot be run at all. *)
Definition env_tool_missing : environment :=
  fun _ _ => Fails "[Errno 2] No such file or directory: 'nmcli'".

(** Every command ends with status 1. *)
Definition env_all_refused : environment :=
  fun _ _ => Exits 1 1 "" "Error".

(** The old profile is not there to delete (status 10); the rest works. *)
Definition env_no_old_profile : environment :=
  fun _ words =>
    if bool_decide (words = hotspot_delete_words)
    then Exits 1 10 "" "Error: unknown connection 'Hotspot'."
    else Exits 1 0 "" "".

(** Adding the profile is refused (status 2); the rest works. *)
Definition env_add_refused : environment :=
  fun _ words =>
    if bool_decide (words = hotspot_add_words "wlan0" "Setup-Robot-WiFi")
    then Exits 1 2 "" "Error: failed to add connection."
    else Exits 1 0 "" "".

(** ** Relations and invariants of the life of the process *)

(** The attributes [__init__] sets for good stay, and the status moves
    to "connected" or not at all. *)
Definition fixed_attributes (w w' : world) : Prop :=
  hotspot_name (self w') = hotspot_name (self w) ∧
  hotspot_password (self w') = hotspot_password (self w) ∧
  interface (self w') = interface (self w) ∧
  ap_ip (self w') = ap_ip (self w) ∧
  (connection_status (self w') = connection_status (self w) ∨
   connection_status (self w') = "connected").

(** A hotspot that is not active stays so. *)
Definition hotspot_stays_down (w w' : world) : Prop :=
  is_hotspot_active (self w) = false → is_hotspot_active (self w') = false.

(** Attributes, pending threads and the end of the process are as before. *)
Definition same_state (w w' : world) : Prop :=
  self w' = self w ∧ pending w' = pending w ∧ exited w' = exited w.

(** The process has run a join command that the tool ended with status 0
    within the 30 time units. *)
Definition joined (env : environment) (w : world) : Prop :=
  ∃ i words secs out err,
    trace w !! i = Some (EvRun words (Some 30)) ∧
    env i words = Exits secs 0 out err ∧ secs ≤ 30.

(** The past is kept, and a status that has become "connected" has a
    successful join behind it. *)
Definition join_evidence (env : environment) (w w' : world) : Prop :=
  trace w `prefix_of` trace w' ∧
  (connection_status (self w') = "connected" →
   connection_status (self w) = "connected" ∨ joined env w').

(** Records of equal signal around a stronger one. *)
Definition out_equal_signals : string :=
  "Beta:50:WPA2" +:+ nl +:+ "Gamma:70:WPA2" +:+ nl +:+ "Alpha:50:".

(** Nothing but white space. *)
Definition out_blank : string := nl +:+ "   " +:+ nl.

(** A record as the scan may return it: a name that is not empty, name
    and security without white space around them, and a signal that is
    -100 or not negative. *)
Definition well_formed (r : network) : Prop :=
  ssid r ≠ "" ∧ Py.strip (ssid r) = ssid r ∧ Py.strip (security r) = security r ∧
  (signal r = -100 ∨ 0 ≤ signal r).

(** ** The scan parser *)

Example strip_examples :
  Py.strip "  Home 5G  " = "Home 5G" ∧ Py.strip (String "009" "a" +:+ nl) = "a" ∧
  Py.strip "   " = "" ∧ Py.strip "" = "".
Proof. repeat split. Qed.

Example split_examples :
  Py.split ":" "Home:40:WPA2" = ["Home"; "40"; "WPA2"] ∧
  Py.split ":" "a::b:" = ["a"; ""; "b"; ""] ∧
  Py.split ":" "" = [""] ∧
  Py.split "010" ("x" +:+ nl +:+ nl +:+ "y") = ["x"; ""; "y"].
Proof. repeat split. Qed.

Example isdigit_examples :
  Py.isdigit "40" = true ∧ Py.isdigit "" = false ∧ Py.isdigit "-40" = false ∧
  Py.isdigit "4 0" = false ∧ Py.isdigit (String "178" "") = true ∧
  Py.int "40" = Ok 40 ∧ Py.int (String "178" "") = Raise ValueError.
Proof. repeat split. Qed.

Example parse_scan_output_mixed :
  parse_scan_output out_mixed
  = Ok [Network "Cafe" 70 "Open"; Network "Home" 40 "WPA2"].
Proof. vm_compute. reflexivity. Qed.

Lemma nonempty_true (s : string) : Py.nonempty s = true ↔ s ≠ "".
Proof. destruct s; simpl; split; congruence. Qed.

Lemma scan_line_record (line : string) (nets : list network) (seen : gset string) st' :
  scan_line line (nets, seen) = Ok st' →
  ∃ o, line_record line = Ok o ∧
       st' = match o with
             | Some r =>
                 if Py.nonempty (ssid r) && negb (bool_decide (ssid r ∈ seen))
                 then (nets ++ [r], {[ ssid r ]} ∪ seen)
                 else (nets, seen)
             | None => (nets, seen)
             end.
Proof.
  unfold scan_line, line_record.
  destruct (negb (Py.nonempty line)); [intros [= <-]; by exists None|].
  destruct (Py.split ":" line) as [|p0 [|p1 [|p2 ps]]];
    try (intros [= <-]; by exists None).
  destruct (parse_signal p1) as [sg|e]; [|discriminate].
  intros H. eexists (Some _). split; [reflexivity|]. simpl.
  destruct (Py.nonempty (Py.strip p0) && negb (bool_decide (Py.strip p0 ∈ seen)));
    congruence.
Qed.

Lemma scan_lines_keep_first (lines : list string) :
  ∀ (nets : list network) (seen : gset string) nets' seen',
  scan_lines lines (nets, seen) = Ok (nets', seen') →
  nets' = nets ++ keep_first (records_of_lines lines) seen.
Proof.
  induction lines as [|line rest IH]; intros nets seen nets' seen';
    cbn [scan_lines records_of_lines].
  - intros [= <- <-]. by rewrite app_nil_r.
  - destruct (scan_line line (nets, seen)) as [st1|e] eqn:Hline; [|discriminate].
    apply scan_line_record in Hline as (o & -> & ->).
    destruct o as [r|]; cbn [keep_first]; [|apply IH].
    destruct (Py.nonempty (ssid r) && negb (bool_decide (ssid r ∈ seen))).
    + intros H. apply IH in H. by rewrite <- app_assoc in H.
    + apply IH.
Qed.

Lemma keep_first_fresh (recs : list network) :
  ∀ (seen : gset string) (r : network),
  r ∈ keep_first recs seen → (ssid r ∉ seen) ∧ (ssid r ≠ "").
Proof.
  induction recs as [|x rest IH]; intros seen r; simpl.
  - intros H. by apply elem_of_nil in H.
  - destruct (Py.nonempty (ssid x)) eqn:Hne; simpl; [|apply IH].
    case_bool_decide as Hin; simpl; [apply IH|].
    intros [->|Hr]%elem_of_cons.
    + split; [done|]. by apply nonempty_true.
    + apply IH in Hr as [Hr ?]. split; [|done].
      by apply not_elem_of_union in Hr as [_ Hr].
Qed.

Lemma keep_first_NoDup (recs : list network) :
  ∀ seen : gset string, NoDup (ssid <$> keep_first recs seen).
Proof.
  induction recs as [|x rest IH]; intros seen; simpl; [constructor|].
  destruct (Py.nonempty (ssid x) && negb (bool_decide (ssid x ∈ seen))); [|apply IH].
  rewrite fmap_cons. constructor; [|apply IH].
  intros (r & Heq & Hr)%list_elem_of_fmap.
  apply keep_first_fresh in Hr as [Hr _]. rewrite <- Heq in Hr.
  apply Hr, elem_of_union. left. by apply elem_of_singleton.
Qed.

Lemma first_named_cons (name : string) (x : network) (rest : list network) :
  first_named name (x :: rest) =
  if String.eqb (ssid x) name then Some x else first_named name rest.
Proof. reflexivity. Qed.

Lemma keep_first_elem (recs : list network) :
  ∀ (seen : gset string) (r : network),
  r ∈ keep_first recs seen ↔
  (ssid r ≠ "") ∧ (ssid r ∉ seen) ∧ first_named (ssid r) recs = Some r.
Proof.
  induction recs as [|x rest IH]; intros seen r.
  - simpl. split; [intros H; by apply elem_of_nil in H|]. by intros (_ & _ & ?).
  - rewrite first_named_cons. simpl.
    destruct (String.eqb_spec (ssid x) (ssid r)) as [Heq|Hne].
    + destruct (Py.nonempty (ssid x)) eqn:Hx; simpl.
      * case_bool_decide as Hin; simpl.
        -- rewrite IH. split; intros (_ & Hn & _); destruct Hn; congruence.
        -- rewrite elem_of_cons, IH. split.
           ++ intros [->|(_ & Hn & _)].
              ** split; [by apply nonempty_true|done].
              ** destruct Hn. apply elem_of_union. left. by apply elem_of_singleton.
           ++ intros (_ & _ & [= ->]). by left.
      * rewrite IH. rewrite Heq in Hx.
        assert (ssid r = "") by (destruct (ssid r); [done|discriminate]).
        split; intros (? & _); done.
    + destruct (Py.nonempty (ssid x) && negb (bool_decide (ssid x ∈ seen))).
      * rewrite elem_of_cons, IH, not_elem_of_union, not_elem_of_singleton. split.
        -- intros [->|(? & [_ ?] & ?)]; [done|]. by split_and!.
        -- intros (? & ? & ?). right. split_and!; [done|congruence|done..].
      * apply IH.
Qed.

(** *** The sort *)

Lemma insert_desc_perm (x : network) (l : list network) : insert_desc x l ≡ₚ x :: l.
Proof.
  induction l as [|y l IH]; simpl; [done|].
  destruct (signal x <? signal y); [|done].
  rewrite IH. apply Permutation_swap.
Qed.

Lemma sort_by_signal_perm (l : list network) : sort_by_signal l ≡ₚ l.
Proof.
  induction l as [|x l IH]; simpl; [done|].
  rewrite insert_desc_perm. by rewrite IH.
Qed.

Lemma insert_desc_descending (x : network) (l : list network) :
  descending l → descending (insert_desc x l).
Proof.
  unfold descending. induction 1 as [|y l Hl IH Hy]; simpl.
  - repeat constructor.
  - destruct (signal x <? signal y) eqn:Hlt.
    + apply Z.ltb_lt in Hlt. constructor; [done|].
      rewrite insert_desc_perm. constructor; [lia|done].
    + apply Z.ltb_ge in Hlt. constructor; [by constructor|].
      constructor; [done|].
      eapply Forall_impl; [exact Hy|]. simpl. lia.
Qed.

Lemma sort_by_signal_descending (l : list network) : descending (sort_by_signal l).
Proof.
  induction l as [|x l IH]; simpl; [constructor|].
  by apply insert_desc_descending.
Qed.

(** The sort is stable: the records of one signal level keep their order. *)
Lemma insert_desc_filter (z : Z) (x : network) (l : list network) :
  descending l →
  filter (fun r => signal r = z) (insert_desc x l) =
  filter (fun r => signal r = z) (x :: l).
Proof.
  unfold descending. induction 1 as [|y l Hl IH Hy]; simpl; [done|].
  destruct (signal x <? signal y) eqn:Hlt; [|done].
  apply Z.ltb_lt in Hlt.
  rewrite !filter_cons, IH, filter_cons.
  repeat case_decide; try done; lia.
Qed.

Lemma sort_by_signal_stable (z : Z) (l : list network) :
  filter (fun r => signal r = z) (sort_by_signal l) = filter (fun r => signal r = z) l.
Proof.
  induction l as [|x l IH]; simpl; [done|].
  rewrite insert_desc_filter by apply sort_by_signal_descending.
  by rewrite !filter_cons, IH.
Qed.

(** *** What the parser returns *)

Lemma parse_scan_output_keep_first (out : string) (nets : list network) :
  parse_scan_output out = Ok nets →
  nets = sort_by_signal (keep_first (raw_records out) ∅).
Proof.
  unfold parse_scan_output, raw_records.
  destruct (scan_lines _ _) as [[nets0 seen]|e] eqn:Hscan; [|discriminate].
  apply scan_lines_keep_first in Hscan. simpl in Hscan. by intros [= <-]; subst.
Qed.

(** What a returned list says about the records of the output. *)
Lemma parse_scan_output_spec (out : string) (nets : list network) :
  parse_scan_output out = Ok nets →
  NoDup (ssid <$> nets) ∧ descending nets ∧
  ∀ r, r ∈ nets ↔ ssid r ≠ "" ∧ first_named (ssid r) (raw_records out) = Some r.
Proof.
  intros ->%parse_scan_output_keep_first. split_and!.
  - rewrite sort_by_signal_perm. apply keep_first_NoDup.
  - apply sort_by_signal_descending.
  - intros r. rewrite sort_by_signal_perm, keep_first_elem. split.
    + by intros (? & _ & ?).
    + intros [? ?]. split_and!; [done|apply not_elem_of_empty|done].
Qed.

(** The signal of a parsed record is a number read from digits, which is
    never negative, or the fallback -100. *)
Lemma int_loop_nonneg (s : string) :
  ∀ acc z, 0 ≤ acc → Py.int_loop acc s = Ok z → 0 ≤ z.
Proof.
  induction s as [|c s IH]; intros acc z Hacc; simpl.
  - by intros [= <-].
  - unfold Py.isdecimal_char, Py.digit_value.
    destruct (_ && _)%N eqn:Hc; [|discriminate].
    apply andb_true_iff in Hc as [Hc _]. apply N.leb_le in Hc.
    apply IH. lia.
Qed.

Lemma parse_signal_range (field : string) (z : Z) :
  parse_signal field = Ok z → z = -100 ∨ 0 ≤ z.
Proof.
  unfold parse_signal, Py.int.
  destruct (Py.isdigit field); [|intros [= <-]; by left].
  destruct (_ && _); [|discriminate].
  intros H. right. by eapply int_loop_nonneg, H.
Qed.

Lemma int_loop_raises (s : string) :
  ∀ acc e, Py.int_loop acc s = Raise e → e = ValueError.
Proof.
  induction s as [|c s IH]; intros acc e; simpl; [discriminate|].
  destruct (Py.isdecimal_char c); [apply IH|congruence].
Qed.

Lemma parse_signal_raises (field : string) (e : exn) :
  parse_signal field = Raise e → e = ValueError.
Proof.
  unfold parse_signal, Py.int.
  destruct (Py.isdigit field); [|discriminate].
  destruct (_ && _); [apply int_loop_raises|congruence].
Qed.

Lemma scan_lines_raises (lines : list string) :
  ∀ st e, scan_lines lines st = Raise e → e = ValueError.
Proof.
  induction lines as [|line rest IH]; intros st e; cbn [scan_lines]; [discriminate|].
  destruct (scan_line line st) as [st1|e1] eqn:Hline; [apply IH|].
  intros [= <-]. revert Hline. unfold scan_line. destruct st as [nets seen].
  destruct (negb (Py.nonempty line)); [discriminate|].
  destruct (Py.split ":" line) as [|p0 [|p1 [|p2 ps]]]; try discriminate.
  destruct (parse_signal p1) as [sg|e2] eqn:Hsig.
  - destruct (_ && _); discriminate.
  - intros [= <-]. by eapply parse_signal_raises.
Qed.

Lemma parse_scan_output_raises (out : string) (e : exn) :
  parse_scan_output out = Raise e → e = ValueError.
Proof.
  unfold parse_scan_output.
  destruct (scan_lines _ _) as [[nets seen]|e1] eqn:Hscan; [discriminate|].
  intros [= <-]. by eapply scan_lines_raises.
Qed.

(** [scan_wifi_networks] by the behaviour of the tool. *)
Lemma scan_wifi_networks_cases (env : environment) (w : world) :
  scan_wifi_networks env w =
  match env (length (trace w)) scan_words with
  | Fails msg => (Raise (OtherError msg), emit (EvRun scan_words None) w)
  | Exits secs rc out err =>
      if rc =? 0 then (parse_scan_output out, emit (EvRun scan_words None) w)
      else (Ok [], emit (EvRun scan_words None) w)
  end.
Proof.
  unfold scan_wifi_networks, try_except, bind, subprocess_run. simpl.
  fold scan_words.
  destruct (env (length (trace w)) scan_words) as [secs rc out err|msg]; [|done].
  destruct (rc =? 0); simpl; [|done].
  unfold lift. destruct (parse_scan_output out) as [nets|e] eqn:Hparse; [done|].
  by apply parse_scan_output_raises in Hparse as ->.
Qed.

(** *** The signal field *)

(** The signal field: a field of decimal digits gives its value in base
    ten ... *)
Lemma int_loop_decimal (s : string) :
  ∀ acc, Py.forall_chars Py.isdecimal_char s = true → ∃ z, Py.int_loop acc s = Ok z.
Proof.
  induction s as [|c s IH]; intros acc; simpl; [by eexists|].
  intros [Hc Hs]%andb_true_iff. rewrite Hc. by apply IH.
Qed.

Lemma decimal_isdigit (field : string) :
  field ≠ "" → Py.forall_chars Py.isdecimal_char field = true → Py.isdigit field = true.
Proof.
  intros Hne%nonempty_true Hdec. unfold Py.isdigit. rewrite Hne. simpl.
  induction field as [|c s IH]; simpl in *; [done|].
  apply andb_true_iff in Hdec as [Hc Hs].
  unfold Py.isdigit_char. rewrite Hc. simpl.
  destruct s; [done|]. by apply IH.
Qed.

Lemma parse_signal_decimal (field : string) :
  field ≠ "" → (String.length field ≤ 4300)%nat →
  Py.forall_chars Py.isdecimal_char field = true →
  ∃ z, parse_signal field = Ok z ∧ Py.int_loop 0 field = Ok z ∧ 0 ≤ z.
Proof.
  intros Hne Hlen Hdec.
  destruct (int_loop_decimal field 0 Hdec) as [z Hz].
  exists z. unfold parse_signal, Py.int.
  rewrite (decimal_isdigit field Hne Hdec).
  apply nonempty_true in Hne. rewrite Hne.
  assert ((N.of_nat (String.length field) <=? Py.max_str_digits)%N = true) as ->
    by (apply N.leb_le; unfold Py.max_str_digits; lia).
  split_and!; [done..|]. by eapply int_loop_nonneg, Hz.
Qed.

(** ... a field of more than 4300 digits makes [int] raise ... *)
Lemma parse_signal_too_long (field : string) :
  Py.isdigit field = true → (4300 < String.length field)%nat →
  parse_signal field = Raise ValueError.
Proof.
  intros Hdigit Hlen. unfold parse_signal, Py.int. rewrite Hdigit.
  assert ((N.of_nat (String.length field) <=? Py.max_str_digits)%N = false) as ->
    by (apply N.leb_gt; unfold Py.max_str_digits; lia).
  by rewrite andb_false_r.
Qed.

(** ... and a field that does not pass [isdigit], such as a negative
    number or the empty string, gives -100. *)
Lemma parse_signal_fallback (field : string) :
  Py.isdigit field = false → parse_signal field = Ok (-100).
Proof. unfold parse_signal. by intros ->. Qed.

Example parse_signal_examples :
  parse_signal "87" = Ok 87 ∧ parse_signal "007" = Ok 7 ∧
  parse_signal "-40" = Ok (-100) ∧ parse_signal "" = Ok (-100) ∧
  parse_signal " 40" = Ok (-100) ∧ parse_signal "4.5" = Ok (-100).
Proof. repeat split. Qed.

(** *** On ASCII output the scan always returns *)

Lemma forall_chars_lstrip (p : ascii → bool) (s : string) :
  Py.forall_chars p s = true → Py.forall_chars p (Py.lstrip s) = true.
Proof.
  induction s as [|c s IH]; simpl; [done|].
  intros [Hc Hs]%andb_true_iff. destruct (Py.isspace c); [by apply IH|].
  simpl. by rewrite Hc, Hs.
Qed.

Lemma forall_chars_rstrip (p : ascii → bool) (s : string) :
  Py.forall_chars p s = true → Py.forall_chars p (Py.rstrip s) = true.
Proof.
  induction s as [|c s IH]; simpl; [done|].
  intros [Hc Hs]%andb_true_iff. specialize (IH Hs).
  destruct (Py.rstrip s) as [|c' r].
  - destruct (Py.isspace c); simpl; [done|]. by rewrite Hc.
  - change (p c && Py.forall_chars p (String c' r) = true). by rewrite Hc, IH.
Qed.

Lemma forall_chars_strip (p : ascii → bool) (s : string) :
  Py.forall_chars p s = true → Py.forall_chars p (Py.strip s) = true.
Proof. intros H. by apply forall_chars_rstrip, forall_chars_lstrip. Qed.

Lemma forall_chars_split (p : ascii → bool) (sep : ascii) (s : string) :
  Py.forall_chars p s = true →
  Forall (fun part => Py.forall_chars p part = true) (Py.split sep s).
Proof.
  induction s as [|c s IH]; simpl; [by repeat constructor|].
  intros [Hc Hs]%andb_true_iff. specialize (IH Hs).
  destruct (Ascii.eqb c sep); [by constructor|].
  destruct (Py.split sep s) as [|part parts]; [repeat constructor; simpl; by rewrite Hc|].
  apply Forall_cons in IH as [Hpart Hparts].
  constructor; [|done]. simpl. by rewrite Hc, Hpart.
Qed.

Lemma ascii_digit_decimal (c : ascii) :
  is_ascii c = true → Py.isdigit_char c = true → Py.isdecimal_char c = true.
Proof.
  unfold is_ascii, Py.isdigit_char. intros Hc%N.ltb_lt.
  destruct (Py.isdecimal_char c); [done|]. simpl.
  intros [[H|H]%orb_true_iff|H]%orb_true_iff; apply N.eqb_eq in H; lia.
Qed.

Lemma split_length (sep : ascii) (s : string) :
  Forall (fun part => (String.length part ≤ String.length s)%nat) (Py.split sep s).
Proof.
  induction s as [|c s IH]; simpl; [by repeat constructor|].
  destruct (Ascii.eqb c sep).
  - constructor; [simpl; lia|]. eapply Forall_impl; [exact IH|]. simpl. lia.
  - destruct (Py.split sep s) as [|part parts];
      [constructor; [simpl; lia|constructor]|].
    apply Forall_cons in IH as [Hpart Hparts].
    constructor; [simpl; lia|]. eapply Forall_impl; [exact Hparts|]. simpl. lia.
Qed.

Lemma parse_signal_ascii (field : string) :
  Py.forall_chars is_ascii field = true → (String.length field ≤ 4300)%nat →
  ∃ z, parse_signal field = Ok z.
Proof.
  intros Hascii Hlen. unfold parse_signal, Py.isdigit, Py.int.
  assert ((N.of_nat (String.length field) <=? Py.max_str_digits)%N = true) as ->
    by (apply N.leb_le; unfold Py.max_str_digits; lia).
  rewrite andb_true_r.
  destruct (Py.nonempty field); simpl; [|by eexists].
  destruct (Py.forall_chars Py.isdigit_char field) eqn:Hdigit; [|by eexists].
  apply int_loop_decimal. clear Hlen.
  induction field as [|c s IH]; simpl in *; [done|].
  apply andb_true_iff in Hascii as [Hc Hs].
  apply andb_true_iff in Hdigit as [Hd Hds].
  rewrite (ascii_digit_decimal c Hc Hd). by apply IH.
Qed.

Lemma scan_lines_ascii (lines : list string) :
  Forall (fun line => Py.forall_chars is_ascii line = true) lines →
  Forall (fun line => (String.length line ≤ 4300)%nat) lines →
  ∀ st, ∃ st', scan_lines lines st = Ok st'.
Proof.
  induction 1 as [|line rest Hline _ IH]; intros Hshort st; cbn [scan_lines];
    [by eexists|].
  apply Forall_cons in Hshort as [Hlen Hshort].
  assert (∃ st1, scan_line line st = Ok st1) as [st1 ->]; [|by apply IH].
  unfold scan_line. destruct st as [nets seen].
  destruct (negb (Py.nonempty line)); [by eexists|].
  pose proof (forall_chars_split is_ascii ":" line Hline) as Hparts.
  pose proof (split_length ":" line) as Hlens.
  destruct (Py.split ":" line) as [|p0 [|p1 [|p2 ps]]]; try by eexists.
  apply Forall_cons in Hparts as [_ [Hp1 _]%Forall_cons].
  apply Forall_cons in Hlens as [_ [Hl1 _]%Forall_cons].
  destruct (parse_signal_ascii p1 Hp1) as [z ->]; [lia|].
  destruct (_ && _); by eexists.
Qed.

(** When the tool can be run and prints ASCII text in lines of no more
    than 4300 characters, [scan_wifi_networks] returns a list. *)
Lemma scan_returns_on_ascii (env : environment) (w : world) secs rc out err :
  env (length (trace w)) scan_words = Exits secs rc out err →
  Py.forall_chars is_ascii out = true →
  Forall (fun line => (String.length line ≤ 4300)%nat) (Py.split "010" (Py.strip out)) →
  ∃ nets, fst (scan_wifi_networks env w) = Ok nets.
Proof.
  intros Henv Hascii Hshort. rewrite scan_wifi_networks_cases, Henv.
  destruct (rc =? 0); [|by eexists]. simpl. unfold parse_scan_output.
  destruct (scan_lines_ascii (Py.split "010" (Py.strip out))
              (forall_chars_split is_ascii "010" _ (forall_chars_strip _ _ Hascii))
              Hshort ([], ∅)) as [[nets seen] ->].
  by eexists.
Qed.

(** C5.  Whatever list [scan_wifi_networks] returns, no name occurs in it
    twice and it is in descending order of signal; when the tool has
    printed [out], the list holds exactly the records with a non-empty
    name that are the first of their name in [out]. *)
Theorem scan_unique_first_descending
    (env : environment) (w w' : world) (nets : list network) :
  scan_wifi_networks env w = (Ok nets, w') →
  NoDup (ssid <$> nets) ∧ descending nets ∧
  ∀ secs out err,
    env (length (trace w)) scan_words = Exits secs 0 out err →
    ∀ r, r ∈ nets ↔ ssid r ≠ "" ∧ first_named (ssid r) (raw_records out) = Some r.
Proof.
  rewrite scan_wifi_networks_cases.
  destruct (env (length (trace w)) scan_words) as [secs rc out err|msg];
    [|discriminate].
  destruct (Z.eqb_spec rc 0) as [->|Hrc].
  - intros [= Hparse _]. apply parse_scan_output_spec in Hparse as (? & ? & Hin).
    split_and!; [done..|]. by intros ? ? ? [= _ <- _].
  - intros [= <- _]. split_and!; [constructor..|]. intros ? ? ? [= _ ? _]. done.
Qed.

Lemma scan_unique_first_descending_witness :
  let nets := [Network "Cafe" 70 "Open"; Network "Home" 40 "WPA2"] in
  NoDup (ssid <$> nets) ∧ descending nets ∧
  ∀ secs out err,
    scanning out_mixed 0%nat scan_words = Exits secs 0 out err →
    ∀ r, r ∈ nets ↔ ssid r ≠ "" ∧ first_named (ssid r) (raw_records out) = Some r.
Proof.
  apply (scan_unique_first_descending (scanning out_mixed) start
           (emit (EvRun scan_words None) start)).
  vm_compute. reflexivity.
Defined.

Lemma first_named_split (name : string) (recs : list network) (r : network) :
  first_named name recs = Some r →
  ssid r = name ∧
  ∃ pre post, recs = pre ++ r :: post ∧ Forall (fun x => ssid x ≠ name) pre.
Proof.
  induction recs as [|x rest IH]; [discriminate|].
  rewrite first_named_cons.
  destruct (String.eqb_spec (ssid x) name) as [Heq|Hne].
  - intros [= ->]. split; [done|]. by exists [], rest.
  - intros (? & pre & post & -> & Hpre)%IH. split; [done|].
    exists (x :: pre), post. split; [done|]. by constructor.
Qed.

Lemma descending_first_strongest (recs : list network) (r r' : network) :
  descending recs →
  first_named (ssid r) recs = Some r →
  r' ∈ recs → ssid r' = ssid r → signal r' ≤ signal r.
Proof.
  intros Hdesc (_ & pre & post & -> & Hpre)%first_named_split Hin Hname.
  apply elem_of_app in Hin as [Hin|Hin].
  - rewrite Forall_forall in Hpre. by destruct (Hpre r' Hin).
  - apply elem_of_cons in Hin as [->|Hin]; [lia|].
    apply StronglySorted_app_1_r in Hdesc.
    apply StronglySorted_inv in Hdesc as [_ Hall].
    rewrite Forall_forall in Hall. by apply Hall.
Qed.

(** C6, as the code has it.  The record kept for a name is the first one
    the tool printed with that name, whatever its signal; it is the
    strongest of its name when the tool printed its records strongest
    first. *)
Theorem scan_keeps_first_of_name
    (env : environment) (w w' : world) (nets : list network) secs out err :
  scan_wifi_networks env w = (Ok nets, w') →
  env (length (trace w)) scan_words = Exits secs 0 out err →
  ∀ r, r ∈ nets →
    first_named (ssid r) (raw_records out) = Some r ∧
    (descending (raw_records out) →
     ∀ r', r' ∈ raw_records out → ssid r' = ssid r → signal r' ≤ signal r).
Proof.
  rewrite scan_wifi_networks_cases. intros Hscan Henv r Hr.
  rewrite Henv in Hscan. simpl in Hscan. injection Hscan as Hparse _.
  apply parse_scan_output_spec in Hparse as (_ & _ & Hin).
  apply Hin in Hr as [_ Hfirst].
  split; [done|]. intros Hdesc r' Hr' Hname.
  by eapply descending_first_strongest.
Qed.

Lemma scan_keeps_first_of_name_witness :
  first_named "Home" (raw_records out_strong_first) = Some (Network "Home" 70 "WPA2") ∧
  (descending (raw_records out_strong_first) →
   ∀ r', r' ∈ raw_records out_strong_first → ssid r' = "Home" → signal r' ≤ 70).
Proof.
  apply (scan_keeps_first_of_name (scanning out_strong_first) start
           (emit (EvRun scan_words None) start)
           [Network "Home" 70 "WPA2"; Network "Cafe" 20 "Open"]
           1 out_strong_first "" eq_refl eq_refl (Network "Home" 70 "WPA2")).
  by left.
Defined.

(** C6 fails as stated: with the weaker record printed first, the record
    kept for the name is the weaker one, although a stronger record of the
    same name is in the output. *)
Lemma strongest_record_not_kept :
  fst (scan_wifi_networks (scanning out_weak_first) start) = Ok [Network "Home" 40 "WPA2"] ∧
  Network "Home" 70 "WPA2" ∈ raw_records out_weak_first ∧
  ¬ (∀ r r', r ∈ [Network "Home" 40 "WPA2"] → r' ∈ raw_records out_weak_first →
             ssid r' = ssid r → signal r' ≤ signal r).
Proof.
  split_and!.
  - vm_compute. reflexivity.
  - vm_compute. apply list_elem_of_In. right. by left.
  - intros H.
    specialize (H (Network "Home" 40 "WPA2") (Network "Home" 70 "WPA2")).
    simpl in H. assert (70 ≤ 40); [|lia].
    apply H; [by left| |done].
    vm_compute. apply list_elem_of_In. right. by left.
Qed.

(** No record of a returned list has a negative signal other than -100. *)
Lemma raw_record_signal_range (lines : list string) (r : network) :
  r ∈ records_of_lines lines → signal r = -100 ∨ 0 ≤ signal r.
Proof.
  induction lines as [|line rest IH]; cbn [records_of_lines].
  - intros H. by apply elem_of_nil in H.
  - destruct (line_record line) as [[x|]|e] eqn:Hline; try done.
    intros [->|Hr]%elem_of_cons; [|by apply IH].
    revert Hline. unfold line_record.
    destruct (negb (Py.nonempty line)); [discriminate|].
    destruct (Py.split ":" line) as [|p0 [|p1 [|p2 ps]]]; try discriminate.
    destruct (parse_signal p1) as [sg|e] eqn:Hsig; [|discriminate].
    intros [= <-]. simpl. by eapply parse_signal_range.
Qed.

Lemma scan_signal_range (env : environment) (w w' : world) (nets : list network) :
  scan_wifi_networks env w = (Ok nets, w') →
  ∀ r, r ∈ nets → signal r = -100 ∨ 0 ≤ signal r.
Proof.
  rewrite scan_wifi_networks_cases.
  destruct (env (length (trace w)) scan_words) as [secs rc out err|msg];
    [|discriminate].
  destruct (rc =? 0).
  - intros [= Hparse _] r Hr.
    apply parse_scan_output_spec in Hparse as (_ & _ & Hin).
    apply Hin in Hr as [_ (_ & pre & post & Hrecs & _)%first_named_split].
    apply (raw_record_signal_range (Py.split "010" (Py.strip out))).
    fold (raw_records out). rewrite Hrecs. apply elem_of_app. right. by left.
  - intros [= <- _] r Hr. by apply elem_of_nil in Hr.
Qed.

(** C8, as the code has it.  When the tool prints the three records
    (Home-5G, -40, WPA2), (Home-5G, -70, WPA2) and (empty name, -50, empty
    security), the scan returns the single record (Home-5G, -100, WPA2):
    the record without a name and the second Home-5G are dropped, and the
    signal field -40, which is not made of digits, is read as -100. *)
Theorem scan_home5g (env : environment) (w : world) secs err :
  env (length (trace w)) scan_words = Exits secs 0 out_home5g err →
  fst (scan_wifi_networks env w) = Ok [Network "Home-5G" (-100) "WPA2"].
Proof.
  intros Henv. rewrite scan_wifi_networks_cases, Henv. reflexivity.
Qed.

Lemma scan_home5g_witness :
  fst (scan_wifi_networks (scanning out_home5g) start)
  = Ok [Network "Home-5G" (-100) "WPA2"].
Proof.
  apply (scan_home5g (scanning out_home5g) start 1 ""). reflexivity.
Defined.

(** C8 fails as stated: on that output the scan does not return the
    record (Home-5G, -40, WPA2). *)
Lemma scan_home5g_not_minus_40 :
  fst (scan_wifi_networks (scanning out_home5g) start)
  ≠ Ok [Network "Home-5G" (-40) "WPA2"].
Proof. vm_compute. discriminate. Qed.

(** C10 fails on a field made of superscript digits: [isdigit] accepts
    it, [int] does not, and the scan ends in [ValueError] instead of a
    record with signal -100; GET /scan then answers with an error
    envelope. *)
Theorem superscript_signal_raises :
  Py.isdigit (String "178" "") = true ∧
  parse_signal (String "178" "") = Raise ValueError ∧
  fst (scan_wifi_networks (scanning out_superscript) start) = Raise ValueError ∧
  fst (scan_networks (scanning out_superscript) start)
  = Ok (Json [("success", JVal (PBool false)); ("error", JExn ValueError)]).
Proof. repeat split. Qed.

(** ** Relations every method respects *)

Section Frame.

Variable R : world → world → Prop.
Hypothesis R_refl : ∀ w, R w w.
Hypothesis R_trans : ∀ a b c, R a b → R b c → R a c.
Hypothesis R_emit_run : ∀ w words t, R w (emit (EvRun words t) w).
Hypothesis R_emit_sleep : ∀ w secs, R w (emit (EvSleep secs) w).
Hypothesis R_with_self : ∀ w f, keeps_connected f → R w (with_self f w).
Hypothesis R_thread_start : ∀ t, respects R (thread_start t).
Hypothesis R_os_exit : ∀ code, respects R (os_exit code).

Lemma respects_ret {A} (a : A) : respects R (ret a).
Proof. intros w. apply R_refl. Qed.

Lemma respects_raise {A} (e : exn) : respects R (@raise A e).
Proof. intros w. apply R_refl. Qed.

Lemma respects_lift {A} (r : result A) : respects R (lift r).
Proof. intros w. apply R_refl. Qed.

Lemma respects_get_self : respects R get_self.
Proof. intros w. apply R_refl. Qed.

Lemma respects_bind {A B} (m : M A) (k : A → M B) :
  respects R m → (∀ a, respects R (k a)) → respects R (bind m k).
Proof.
  intros Hm Hk w. unfold bind. specialize (Hm w).
  destruct (m w) as [[a|e] w1]; simpl in *; [|done].
  eapply R_trans; [exact Hm|apply Hk].
Qed.

Lemma respects_try_except {A} (m : M A) (h : exn → M A) :
  respects R m → (∀ e, respects R (h e)) → respects R (try_except m h).
Proof.
  intros Hm Hh w. unfold try_except. specialize (Hm w).
  destruct (m w) as [[a|e] w1]; simpl in *; [done|].
  eapply R_trans; [exact Hm|apply Hh].
Qed.

Lemma respects_sleep (secs : Z) : respects R (sleep secs).
Proof. intros w. apply R_emit_sleep. Qed.

Lemma respects_update_self (f : WiFiConnect → WiFiConnect) :
  keeps_connected f → respects R (update_self f).
Proof. intros Hf w. by apply R_with_self. Qed.

Lemma respects_dict_get (data : document) (key : string) (dflt : pyval) :
  respects R (dict_get data key dflt).
Proof. destruct data; [apply respects_ret|apply respects_raise]. Qed.

Variable env : environment.

Lemma respects_subprocess_run (argv : list pyval) (timeout : option Z) (check : bool) :
  respects R (subprocess_run env argv timeout check).
Proof.
  unfold subprocess_run.
  destruct (argv_strings argv) as [words|]; [|apply respects_raise].
  intros w. destruct (env (length (trace w)) words) as [secs rc out err|msg];
    [|apply R_emit_run].
  repeat case_match; apply R_emit_run.
Qed.

Lemma keeps_connected_status : keeps_connected (set_connection_status "connected").
Proof. by intros o _. Qed.

Lemma keeps_connected_hotspot (b : bool) : keeps_connected (set_is_hotspot_active b).
Proof. by intros o H. Qed.

Ltac respects_step :=
  first
    [ apply respects_ret | apply respects_raise | apply respects_lift
    | apply respects_get_self | apply respects_sleep
    | apply respects_subprocess_run | apply respects_dict_get
    | apply respects_update_self;
        first [apply keeps_connected_status | apply keeps_connected_hotspot]
    | apply respects_bind; [|intros ?]
    | apply respects_try_except; [|intros ?]
    | match goal with
      | |- respects _ (if ?b then _ else _) => destruct b
      | |- respects _ (match ?x with _ => _ end) => destruct x
      end ].

Lemma respects_scan_wifi_networks : respects R (scan_wifi_networks env).
Proof. unfold scan_wifi_networks. repeat respects_step. Qed.

Lemma respects_connect_to_network (ssid password : pyval) :
  respects R (connect_to_network env ssid password).
Proof. unfold connect_to_network. repeat respects_step. Qed.

Lemma respects_create_hotspot : respects R (create_hotspot env).
Proof. unfold create_hotspot. repeat respects_step. Qed.

Lemma respects_shutdown_hotspot : respects R (shutdown_hotspot env).
Proof. unfold shutdown_hotspot. repeat respects_step. Qed.

Lemma respects_shutdown_hotspot_delayed : respects R (shutdown_hotspot_delayed env).
Proof.
  unfold shutdown_hotspot_delayed.
  repeat first [apply respects_shutdown_hotspot | apply R_os_exit | respects_step].
Qed.

Lemma respects_connect_wifi (req : request) : respects R (connect_wifi env req).
Proof.
  unfold connect_wifi.
  repeat first [apply respects_connect_to_network | apply R_thread_start | respects_step].
Qed.

Lemma respects_dispatch (req : request) : respects R (dispatch env req).
Proof.
  unfold dispatch.
  destruct (List.find _ url_map) as [[[p methods] ep]|].
  - assert (respects R (view env ep req)) as Hview.
    { destruct ep; simpl; unfold render_portal_page, scan_networks, get_status;
        repeat first [apply respects_connect_wifi | apply respects_scan_wifi_networks
                     | respects_step]. }
    repeat case_match; try done; apply respects_ret.
  - repeat case_match; apply respects_ret.
Qed.

Lemma respects_run_start : respects R (run_start env).
Proof.
  unfold run_start.
  repeat first [apply respects_create_hotspot | apply respects_shutdown_hotspot
               | apply R_os_exit | respects_step].
Qed.

Lemma respects_step_op (o : op) (w : world) :
  (∀ t rest, pending w = t :: rest →
     R w (World (self w) (trace w) rest (exited w))) →
  R w (step env o w).
Proof.
  intros Hpop. unfold step. destruct (exited w); [apply R_refl|].
  destruct o as [req| |].
  - apply respects_dispatch.
  - destruct (pending w) as [|t rest] eqn:Hp; [apply R_refl|].
    eapply R_trans; [exact (Hpop t rest eq_refl)|].
    destruct t. apply respects_shutdown_hotspot_delayed.
  - apply respects_bind; [apply respects_shutdown_hotspot|intros _; apply R_os_exit].
Qed.

End Frame.

(** *** Once connected, still connected *)

Lemma status_kept_refl (w : world) : status_kept w w.
Proof. by intros H. Qed.

Lemma status_kept_trans (a b c : world) :
  status_kept a b → status_kept b c → status_kept a c.
Proof. unfold status_kept. auto. Qed.

Lemma status_kept_emit (e : event) (w : world) : status_kept w (emit e w).
Proof. by intros H. Qed.

Lemma status_kept_with_self (w : world) (f : WiFiConnect → WiFiConnect) :
  keeps_connected f → status_kept w (with_self f w).
Proof. intros Hf H. by apply Hf. Qed.

Lemma status_kept_thread_start (t : target) : respects status_kept (thread_start t).
Proof. by intros w H. Qed.

Lemma status_kept_os_exit (code : Z) : respects status_kept (os_exit code).
Proof. by intros w H. Qed.

Lemma step_status_kept (env : environment) (o : op) (w : world) :
  status_kept w (step env o w).
Proof.
  apply (respects_step_op status_kept status_kept_refl status_kept_trans
           (fun w words t => status_kept_emit (EvRun words t) w)
           (fun w secs => status_kept_emit (EvSleep secs) w)
           status_kept_with_self status_kept_thread_start status_kept_os_exit).
  by intros t rest _ H.
Qed.

Lemma run_start_status_kept (env : environment) : respects status_kept (run_start env).
Proof.
  apply (respects_run_start status_kept status_kept_refl status_kept_trans
           (fun w words t => status_kept_emit (EvRun words t) w)
           status_kept_with_self status_kept_os_exit).
Qed.

(** No method ever writes a status other than "connected". *)
Lemma states_status_chain (env : environment) (ops : list op) :
  ∀ w, Sorted (fun x y : string => x = "connected" → y = "connected")
         ((fun w => connection_status (self w)) <$> states env w ops).
Proof.
  induction ops as [|o rest IH]; intros w; simpl.
  - repeat constructor.
  - constructor; [apply IH|].
    destruct rest; simpl; constructor; apply step_status_kept.
Qed.

Lemma chain_transitions (l : list string) :
  ∀ prev,
  Sorted (fun x y : string => x = "connected" → y = "connected") (prev :: l) →
  (transitions_from "disconnected" "connected" prev l ≤ 1)%nat ∧
  (prev = "connected" → transitions_from "disconnected" "connected" prev l = 0%nat) ∧
  transitions_from "connected" "disconnected" prev l = 0%nat.
Proof.
  induction l as [|y rest IH]; intros prev Hsorted; simpl.
  - split_and!; [lia|done..].
  - apply Sorted_inv in Hsorted as [Hrest Hhd]. apply HdRel_inv in Hhd.
    destruct (IH y Hrest) as (IH1 & IH2 & IH3). rewrite IH3.
    destruct (String.eqb_spec prev "connected") as [->|Hprev].
    + rewrite Hhd in * by done. simpl. rewrite IH2 by done. split_and!; [lia|done..].
    + simpl. destruct (String.eqb_spec y "connected") as [->|Hy].
      * rewrite IH2 by done. rewrite andb_true_r.
        split_and!; [destruct (String.eqb prev "disconnected"); simpl; lia|done..].
      * rewrite andb_false_r. simpl. split_and!; [done|congruence|done].
Qed.

(** C9.  Over every sequence of requests, timer runs and interrupts,
    [connection_status] steps from "disconnected" to "connected" at most
    once and never from "connected" to "disconnected". *)
Theorem connected_at_most_once (env : environment) (ops : list op) :
  (transitions "disconnected" "connected" (statuses env ops) ≤ 1)%nat ∧
  transitions "connected" "disconnected" (statuses env ops) = 0%nat.
Proof.
  assert (Sorted (fun x y : string => x = "connected" → y = "connected")
            (statuses env ops)) as Hchain.
  { unfold statuses, lifetime. rewrite fmap_cons. constructor.
    - apply states_status_chain.
    - destruct ops; constructor; exact (run_start_status_kept env start). }
  revert Hchain. unfold statuses, lifetime. rewrite fmap_cons. unfold transitions.
  intros (? & _ & ?)%chain_transitions. done.
Qed.

(** The step from "disconnected" to "connected" does happen. *)
Example connected_once :
  statuses env_all_good [Serve (post_connect "Home-5G" "secret"); TimerFires]
  = ["disconnected"; "disconnected"; "connected"; "connected"].
Proof. vm_compute. reflexivity. Qed.

(** ** Joining a network *)

Lemma trace_emit (e : event) (w : world) :
  length (trace (emit e w)) = S (length (trace w)).
Proof. simpl. rewrite length_app. simpl. lia. Qed.

(** [connect_to_network] on a name that is a string, by the behaviour of
    the three commands it runs. *)
Lemma connect_to_network_name
    (env : environment) (name : string) (password : pyval) (w : world) :
  connect_to_network env (PStr name) password w =
  let n := length (trace w) in
  let w1 := emit (EvRun (delete_words name) None) w in
  match env n (delete_words name) with
  | Fails _ => (Ok false, w1)
  | Exits _ _ _ _ =>
      match argv_strings (join_cmd (PStr name) password) with
      | None => (Ok false, emit (EvSleep 1) w1)
      | Some words =>
          let w2 := emit (EvRun words (Some 30)) (emit (EvSleep 1) w1) in
          match env (S (S n)) words with
          | Fails _ => (Ok false, w2)
          | Exits secs rc _ _ =>
              if 30 <? secs then (Ok false, w2)
              else if rc =? 0 then
                let w3 := emit (EvSleep 2)
                            (with_self (set_connection_status "connected") w2) in
                let w4 := emit (EvRun (show_words (interface (self w))) None) w3 in
                match env (S (S (S (S n)))) (show_words (interface (self w))) with
                | Fails _ => (Ok false, w4)
                | Exits _ _ _ _ => (Ok true, w4)
                end
              else (Ok false, w2)
          end
      end
  end.
Proof.
  unfold connect_to_network, try_except, bind, subprocess_run.
  cbn [args fmap list_fmap app argv_strings].
  fold (delete_words name).
  destruct (env (length (trace w)) (delete_words name)) as [s0 rc0 out0 err0|msg0];
    [|done].
  cbn [sleep ret fst snd andb].
  assert (∀ e1 e2, length (trace (emit e2 (emit e1 w))) = S (S (length (trace w)))) as L2.
  { intros. by rewrite !trace_emit. }
  assert (∀ e1 e2 e3 e4 f,
            length (trace (emit e4 (with_self f (emit e3 (emit e2 (emit e1 w))))))
            = S (S (S (S (length (trace w)))))) as L4.
  { intros. rewrite trace_emit. cbn [with_self trace]. by rewrite !trace_emit. }
  destruct (argv_strings (join_cmd name password)) as [words|]; [|done].
  rewrite L2.
  destruct (env (S (S (length (trace w)))) words) as [s1 rc1 out1 err1|msg1]; [|done].
  destruct (30 <? s1); [done|]; cbn [returncode andb].
  destruct (rc1 =? 0); [|done].
  unfold update_self, get_self; cbn [argv_strings]; rewrite L4.
  cbn [with_self self emit interface set_connection_status].
  fold (show_words (interface (self w))).
  destruct (env _ (show_words _)) as [s2 rc2 out2 err2|msg2]; [|done].
  cbn [andb stdout]; by destruct (Py.contains _ _).
Qed.

Lemma join_cmd_words (name cred : string) :
  argv_strings (join_cmd (PStr name) (PStr cred)) = Some (join_words name cred).
Proof. unfold join_cmd, join_words. simpl. by destruct (Py.nonempty cred). Qed.

(** A name that is not a string never reaches the tool. *)
Lemma connect_to_network_not_str
    (env : environment) (ssid password : pyval) (w : world) :
  (∀ name, ssid ≠ PStr name) →
  connect_to_network env ssid password w = (Ok false, w).
Proof.
  intros Hssid. unfold connect_to_network, try_except, bind, subprocess_run.
  cbn [args fmap list_fmap app argv_strings].
  destruct ssid as [| | |name|]; try done. by destruct (Hssid name).
Qed.

(** When [connect_to_network] returns [True]: the join command has been
    run, has ended within the 30 time units with status 0, and the status
    is "connected". *)
Lemma connect_to_network_true
    (env : environment) (ssid password : pyval) (w w1 : world) :
  connect_to_network env ssid password w = (Ok true, w1) →
  connection_status (self w1) = "connected" ∧
  ∃ words secs out err,
    EvRun words (Some 30) ∈ trace w1 ∧
    env (S (S (length (trace w)))) words = Exits secs 0 out err ∧ secs ≤ 30.
Proof.
  destruct ssid as [| | |name|];
    try (rewrite connect_to_network_not_str by done; discriminate).
  rewrite connect_to_network_name. cbv zeta.
  destruct (env (length (trace w)) (delete_words name)); [|discriminate].
  destruct (argv_strings _) as [words|]; [|discriminate].
  destruct (env (S (S (length (trace w)))) words) as [s1 rc1 out1 err1|] eqn:Hjoin;
    [|discriminate].
  destruct (Z.ltb_spec 30 s1); [discriminate|].
  destruct (Z.eqb_spec rc1 0) as [->|]; [|discriminate].
  destruct (env (S (S (S (S _)))) _); [|discriminate].
  intros [= <-]. split; [done|].
  exists words, s1, out1, err1. split_and!; [|done..].
  simpl. rewrite !elem_of_app, !elem_of_cons. tauto.
Qed.

(** When the join command does not end with status 0 within the 30 time
    units, [connect_to_network] returns [False] and leaves the attributes
    as they were. *)
Lemma connect_to_network_join_failed
    (env : environment) (name : string) (password : pyval) (w : world) :
  (∀ words secs out err,
     argv_strings (join_cmd (PStr name) password) = Some words →
     env (S (S (length (trace w)))) words = Exits secs 0 out err → 30 < secs) →
  fst (connect_to_network env (PStr name) password w) = Ok false ∧
  self (snd (connect_to_network env (PStr name) password w)) = self w.
Proof.
  intros Hjoin. rewrite connect_to_network_name. cbv zeta.
  destruct (env (length (trace w)) (delete_words name)); [|done].
  destruct (argv_strings _) as [words|]; [|done].
  destruct (env (S (S (length (trace w)))) words) as [s1 rc1 out1 err1|] eqn:Henv;
    [|done].
  destruct (Z.ltb_spec 30 s1); [done|].
  destruct (Z.eqb_spec rc1 0) as [->|]; [|done].
  specialize (Hjoin words s1 out1 err1 eq_refl Henv). lia.
Qed.

(** *** No thread is started by [connect_to_network] *)

Lemma no_thread_refl (w : world) : no_thread w w.
Proof. done. Qed.

Lemma no_thread_trans (a b c : world) : no_thread a b → no_thread b c → no_thread a c.
Proof. unfold no_thread. intros (-> & -> & ->) (-> & -> & ->). done. Qed.

Lemma no_thread_emit (e : event) (w : world) :
  is_thread e = false → no_thread w (emit e w).
Proof.
  intros He. split_and!; [done..|]. simpl. unfold threads_started.
  rewrite filter_app, length_app. simpl. unfold filter. simpl.
  rewrite He. simpl. lia.
Qed.

Lemma no_thread_with_self (w : world) (f : WiFiConnect → WiFiConnect) :
  keeps_connected f → no_thread w (with_self f w).
Proof. done. Qed.

Lemma connect_to_network_no_thread (env : environment) (ssid password : pyval) :
  respects no_thread (connect_to_network env ssid password).
Proof.
  apply (respects_connect_to_network no_thread no_thread_refl no_thread_trans
           (fun w words t => no_thread_emit (EvRun words t) w eq_refl)
           (fun w secs => no_thread_emit (EvSleep secs) w eq_refl)
           no_thread_with_self).
Qed.

(** ** The handlers *)

(** The rules [setup_routes] does register answer. *)
Example routes_answer :
  fst (dispatch env_all_good (Request "GET" "/" (Ok NotDict)) start) = Ok Html ∧
  fst (dispatch env_all_good (Request "GET" "/portal" (Ok NotDict)) start) = Ok Html ∧
  fst (dispatch env_all_good (Request "GET" "/status" (Ok NotDict)) start)
  = Ok (Json [("hotspot_active", JVal (PBool false));
              ("connection_status", JVal (PStr "disconnected"));
              ("hotspot_name", JVal (PStr "Setup-Robot-WiFi"))]) ∧
  fst (dispatch env_all_good (Request "GET" "/connect" (Ok NotDict)) start)
  = Ok MethodNotAllowed ∧
  fst (dispatch (scanning out_mixed) (Request "GET" "/scan" (Ok NotDict)) start)
  = Ok (Json [("success", JVal (PBool true));
              ("networks", JNetworks [Network "Cafe" 70 "Open"; Network "Home" 40 "WPA2"])]).
Proof. vm_compute. repeat split. Qed.

(** C1 fails on the code: the page sends POST /shutdown, and
    [setup_routes] has no rule for that path; whatever the method and the
    body, the answer is 404, nothing is run, the hotspot stays up and the
    process lives on. *)
Theorem shutdown_not_routed
    (env : environment) (meth : string) (body : result document) (w : world) :
  ("POST", "/shutdown") ∈ page_fetches ∧
  dispatch env (Request meth "/shutdown" body) w = (Ok NotFound, w).
Proof.
  split; [|reflexivity].
  unfold page_fetches. do 2 right. by left.
Qed.

(** After the request of the page's shutdown button the hotspot is still
    active and the process still runs. *)
Example shutdown_button_has_no_effect :
  let w := step env_all_good (Serve post_shutdown) (snd (run_start env_all_good start)) in
  is_hotspot_active (self w) = true ∧ exited w = false ∧
  w = snd (run_start env_all_good start).
Proof. vm_compute. repeat split. Qed.

(** [connect_wifi] on a body that is an object, by what the join
    returns. *)
Lemma connect_wifi_dict
    (env : environment) (req : request) (d : gmap string pyval) (w : world) :
  get_json req = Ok (Dict d) →
  connect_wifi env req w =
  let ssid := default PNone (d !! "ssid") in
  let password := default (PStr "") (d !! "password") in
  if negb (truthy ssid) then
    (Ok (Json [("success", JVal (PBool false));
               ("error", JVal (PStr "SSID is required"))]), w)
  else
    match connect_to_network env ssid password w with
    | (Ok true, w1) =>
        (Ok (Json [("success", JVal (PBool true));
                   ("message", JVal (PStr ("Successfully connected to " +:+ py_str ssid
                                           +:+ "! Portal will shut down in a few seconds.")));
                   ("connected", JVal (PBool true));
                   ("ssid", JVal ssid)]),
         World (self w1) (trace w1 ++ [EvThread shutdown_hotspot_delayed_target])
           (pending w1 ++ [shutdown_hotspot_delayed_target]) (exited w1))
    | (Ok false, w1) =>
        (Ok (Json [("success", JVal (PBool false));
                   ("error", JVal (PStr "Failed to connect to network. Please check your credentials and try again."))]),
         w1)
    | (Raise e, w1) =>
        (Ok (Json [("success", JVal (PBool false)); ("error", JExn e)]), w1)
    end.
Proof.
  intros Hjson. unfold connect_wifi, try_except, bind, lift, dict_get, ret.
  rewrite Hjson. cbv zeta.
  destruct (negb (truthy (default PNone (d !! "ssid")))); [done|].
  by destruct (connect_to_network _ _ _ w) as [[[|]|e] w1].
Qed.

(** C4.  A body without "ssid", or with an empty one, is answered with
    the validation error at once: the world is as before, so no command
    has been run and no thread started. *)
Theorem connect_without_name
    (env : environment) (req : request) (d : gmap string pyval) (w : world) :
  get_json req = Ok (Dict d) →
  d !! "ssid" = None ∨ d !! "ssid" = Some (PStr "") →
  connect_wifi env req w
  = (Ok (Json [("success", JVal (PBool false));
               ("error", JVal (PStr "SSID is required"))]), w).
Proof.
  intros Hjson Hssid. rewrite (connect_wifi_dict env req d w Hjson).
  by destruct Hssid as [-> | ->].
Qed.

Lemma connect_without_name_witness :
  connect_wifi env_all_good post_connect_empty start
  = (Ok (Json [("success", JVal (PBool false));
               ("error", JVal (PStr "SSID is required"))]), start).
Proof.
  apply (connect_without_name env_all_good post_connect_empty (<["ssid" := PStr ""]> ∅) start).
  - reflexivity.
  - right. reflexivity.
Defined.

(** The same holds for every name Python takes as false: null, false, 0,
    an empty list. *)
Lemma connect_falsy_name
    (env : environment) (req : request) (d : gmap string pyval) (w : world) :
  get_json req = Ok (Dict d) →
  truthy (default PNone (d !! "ssid")) = false →
  connect_wifi env req w
  = (Ok (Json [("success", JVal (PBool false));
               ("error", JVal (PStr "SSID is required"))]), w).
Proof.
  intros Hjson Hssid. rewrite (connect_wifi_dict env req d w Hjson).
  cbv zeta. by rewrite Hssid.
Qed.

(** A body that is not an object, or no JSON at all, also ends in an
    error envelope without any effect. *)
Lemma connect_without_dict (env : environment) (req : request) (w : world) :
  (∀ d, get_json req ≠ Ok (Dict d)) →
  ∃ e, connect_wifi env req w
       = (Ok (Json [("success", JVal (PBool false)); ("error", JExn e)]), w).
Proof.
  intros Hreq. unfold connect_wifi, try_except, bind, lift, dict_get, ret.
  destruct (get_json req) as [[d|]|e]; [by destruct (Hreq d)|by eexists..].
Qed.

(** Whenever the join does not report success, the answer is an error
    envelope. *)
Lemma connect_failure_envelope
    (env : environment) (req : request) (d : gmap string pyval) (w w1 : world) :
  get_json req = Ok (Dict d) →
  truthy (default PNone (d !! "ssid")) = true →
  connect_to_network env (default PNone (d !! "ssid"))
    (default (PStr "") (d !! "password")) w = (Ok false, w1) →
  connect_wifi env req w
  = (Ok (Json [("success", JVal (PBool false));
               ("error", JVal (PStr "Failed to connect to network. Please check your credentials and try again."))]),
     w1).
Proof.
  intros Hjson Hssid Hjoin. rewrite (connect_wifi_dict env req d w Hjson).
  cbv zeta. by rewrite Hssid, Hjoin.
Qed.

(** When the join command itself fails (another exit status, no end
    within 30 time units, or no start at all), the answer is the error
    envelope and the attributes are as before. *)
Lemma connect_join_failed_unchanged
    (env : environment) (req : request) (d : gmap string pyval)
    (name : string) (w : world) :
  get_json req = Ok (Dict d) →
  d !! "ssid" = Some (PStr name) → name ≠ "" →
  (∀ words secs out err,
     argv_strings (join_cmd (PStr name) (default (PStr "") (d !! "password")))
     = Some words →
     env (S (S (length (trace w)))) words = Exits secs 0 out err → 30 < secs) →
  fst (connect_wifi env req w)
  = Ok (Json [("success", JVal (PBool false));
              ("error", JVal (PStr "Failed to connect to network. Please check your credentials and try again."))]) ∧
  self (snd (connect_wifi env req w)) = self w.
Proof.
  intros Hjson Hssid Hname%nonempty_true Hjoin.
  apply connect_to_network_join_failed in Hjoin as [Hres Hself].
  destruct (connect_to_network env name _ w) as [r w1] eqn:Hrun.
  simpl in Hres, Hself. subst r.
  rewrite (connect_failure_envelope env req d w w1); [done..| |].
  - by rewrite Hssid.
  - by rewrite Hssid.
Qed.

(** C3 fails on the code when the join command has ended with status 0
    and the query of the interface that follows raises: the status is
    already "connected", the method returns [False], and the handler
    answers with the error envelope. *)
Theorem connect_failure_changes_status :
  let req := post_connect "Home-5G" "secret" in
  connection_status (self start) = "disconnected" ∧
  fst (connect_to_network env_query_fails (PStr "Home-5G") (PStr "secret") start)
  = Ok false ∧
  fst (connect_wifi env_query_fails req start)
  = Ok (Json [("success", JVal (PBool false));
              ("error", JVal (PStr "Failed to connect to network. Please check your credentials and try again."))]) ∧
  connection_status (self (snd (connect_wifi env_query_fails req start))) = "connected" ∧
  pending (snd (connect_wifi env_query_fails req start)) = [].
Proof. vm_compute. repeat split. Qed.

(** [connect_to_network] returns [True] exactly when the clean-up could
    be run, the join command has ended within 30 time units with status
    0, and the query of the interface could be run. *)
Lemma connect_to_network_true_iff
    (env : environment) (name cred : string) (w : world) :
  fst (connect_to_network env (PStr name) (PStr cred) w) = Ok true ↔
  (∃ secs rc out err,
     env (length (trace w)) (delete_words name) = Exits secs rc out err) ∧
  (∃ secs out err,
     env (S (S (length (trace w)))) (join_words name cred) = Exits secs 0 out err ∧
     secs ≤ 30) ∧
  (∃ secs rc out err,
     env (S (S (S (S (length (trace w)))))) (show_words (interface (self w)))
     = Exits secs rc out err).
Proof.
  rewrite connect_to_network_name, join_cmd_words. cbv zeta.
  destruct (env (length (trace w)) (delete_words name)) as [s0 rc0 out0 err0|];
    [|split; [done|by intros [(? & ? & ? & ? & ?) _]]].
  destruct (env (S (S _)) (join_words name cred)) as [s1 rc1 out1 err1|];
    [|split; [done|by intros (_ & (? & ? & ? & ? & ?) & _)]].
  destruct (Z.ltb_spec 30 s1).
  { split; [done|]. intros (_ & (? & ? & ? & [= -> _ _ _] & ?) & _). lia. }
  destruct (Z.eqb_spec rc1 0) as [->|].
  2: { split; [done|]. by intros (_ & (? & ? & ? & [= _ ? _ _] & ?) & _). }
  destruct (env (S (S (S (S _)))) _) as [s2 rc2 out2 err2|];
    [|split; [done|by intros (_ & _ & (? & ? & ? & ? & ?))]].
  split; [|done]. intros _. split_and!; eauto 10.
Qed.

(** An exit status other than 0, and a join command that outlasts the 30
    time units, give [False]; status 0 gives [True] also when the
    interface shows no address. *)
Example connect_to_network_examples :
  fst (connect_to_network env_join_refused (PStr "Home-5G") (PStr "secret") start) = Ok false ∧
  fst (connect_to_network env_join_slow (PStr "Home-5G") (PStr "secret") start) = Ok false ∧
  fst (connect_to_network env_no_address (PStr "Home-5G") (PStr "secret") start) = Ok true ∧
  fst (connect_to_network env_all_good (PStr "Home-5G") (PStr "") start) = Ok true.
Proof. vm_compute. repeat split. Qed.

(** C7 fails on the code: the join command ends after 3 time units with
    status 0, the query of the interface that follows raises, and
    [connect_to_network] returns [False]. *)
Theorem zero_exit_reported_as_failure :
  env_query_fails 2%nat (join_words "Home-5G" "secret") = Exits 3 0 "" "" ∧
  3 ≤ 30 ∧
  connect_to_network env_query_fails (PStr "Home-5G") (PStr "secret") start
  = (Ok false,
     World (set_connection_status "connected" init)
       [EvRun (delete_words "Home-5G") None; EvSleep 1;
        EvRun (join_words "Home-5G" "secret") (Some 30); EvSleep 2;
        EvRun (show_words "wlan0") None]
       [] false).
Proof. vm_compute. repeat split; discriminate. Qed.


(** * The rest of the class *)

(** ** [create_hotspot] *)

Lemma trace_with_self (f : WiFiConnect → WiFiConnect) (w : world) :
  trace (with_self f w) = trace w.
Proof. reflexivity. Qed.

(** [create_hotspot] by the behaviour of the four commands it runs. *)
Lemma create_hotspot_cases (env : environment) (w : world) :
  create_hotspot env w =
  let n := length (trace w) in
  let add := hotspot_add_words (interface (self w)) (hotspot_name (self w)) in
  let w1 := emit (EvRun hotspot_delete_words None) w in
  let w2 := emit (EvRun add None) w1 in
  let w3 := emit (EvRun hotspot_modify_words None) w2 in
  let w4 := emit (EvRun hotspot_up_words None) w3 in
  match env n hotspot_delete_words with
  | Fails _ => (Ok false, w1)
  | Exits _ _ _ _ =>
      match env (S n) add with
      | Fails _ => (Ok false, w2)
      | Exits _ rc1 _ _ =>
          if rc1 =? 0 then
            match env (S (S n)) hotspot_modify_words with
            | Fails _ => (Ok false, w3)
            | Exits _ rc2 _ _ =>
                if rc2 =? 0 then
                  match env (S (S (S n))) hotspot_up_words with
                  | Fails _ => (Ok false, w4)
                  | Exits _ rc3 _ _ =>
                      if rc3 =? 0
                      then (Ok true, with_self (set_is_hotspot_active true) w4)
                      else (Ok false, w4)
                  end
                else (Ok false, w3)
            end
          else (Ok false, w2)
      end
  end.
Proof.
  unfold create_hotspot, try_except, bind, subprocess_run, get_self, update_self, raise, ret.
  cbn [args fmap list_fmap argv_strings].
  fold hotspot_delete_words hotspot_modify_words hotspot_up_words.
  cbv zeta.
  destruct (env (length (trace w)) hotspot_delete_words) as [s0 rc0 out0 err0|msg0];
    [|done].
  cbn [andb self emit argv_strings]. rewrite !trace_emit.
  fold (hotspot_add_words (interface (self w)) (hotspot_name (self w))).
  destruct (env (S (length (trace w))) (hotspot_add_words _ _)) as [s1 rc1 out1 err1|msg1];
    [|done].
  cbn [returncode]. destruct (rc1 =? 0); cbn [negb]; [|done].
  cbn [andb negb]. rewrite !trace_emit.
  destruct (env (S (S (length (trace w)))) hotspot_modify_words) as [s2 rc2 out2 err2|msg2];
    [|done].
  destruct (rc2 =? 0); cbn [negb]; [|done].
  rewrite !trace_emit.
  destruct (env (S (S (S (length (trace w))))) hotspot_up_words) as [s3 rc3 out3 err3|msg3];
    [|done].
  cbn [returncode]. by destruct (rc3 =? 0).
Qed.

Lemma create_hotspot_returns (env : environment) (w : world) :
  ∃ b, fst (create_hotspot env w) = Ok b.
Proof.
  rewrite create_hotspot_cases. cbv zeta.
  repeat first [ match goal with
                 | |- context [match env ?n ?words with _ => _ end] =>
                     destruct (env n words)
                 | |- context [if ?rc =? 0 then _ else _] => destruct (rc =? 0)
                 end
               | by eexists ].
Qed.

Lemma create_hotspot_false_self (env : environment) (w : world) :
  fst (create_hotspot env w) = Ok false → self (snd (create_hotspot env w)) = self w.
Proof.
  rewrite create_hotspot_cases. cbv zeta.
  repeat first [ match goal with
                 | |- context [match env ?n ?words with _ => _ end] =>
                     destruct (env n words)
                 | |- context [if ?rc =? 0 then _ else _] => destruct (rc =? 0)
                 end
               | done ].
Qed.

Lemma create_hotspot_true_world (env : environment) (w : world) :
  fst (create_hotspot env w) = Ok true →
  snd (create_hotspot env w)
  = World (set_is_hotspot_active true (self w)) (trace w ++ create_events (self w))
      (pending w) (exited w).
Proof.
  rewrite create_hotspot_cases. cbv zeta.
  repeat first [ match goal with
                 | |- context [match env ?n ?words with _ => _ end] =>
                     destruct (env n words)
                 | |- context [if ?rc =? 0 then _ else _] => destruct (rc =? 0)
                 end
               | discriminate ].
  intros _. unfold create_events, with_self, emit. simpl. f_equal.
  by rewrite <- !app_assoc.
Qed.

(** X1.  [create_hotspot] returns [True] exactly when the old profile
    could be asked to go (whatever the answer), and adding the profile,
    turning it into an access point and bringing it up each ended with
    status 0. *)
Theorem create_hotspot_true_iff (env : environment) (w : world) :
  fst (create_hotspot env w) = Ok true ↔
  runs (env (length (trace w)) hotspot_delete_words) ∧
  succeeds (env (S (length (trace w)))
              (hotspot_add_words (interface (self w)) (hotspot_name (self w)))) ∧
  succeeds (env (S (S (length (trace w)))) hotspot_modify_words) ∧
  succeeds (env (S (S (S (length (trace w))))) hotspot_up_words).
Proof.
  rewrite create_hotspot_cases. cbv zeta.
  destruct (env (length (trace w)) hotspot_delete_words); simpl;
    [|by (split; [|intros (? & ? & ? & ?)])].
  destruct (env (S _) (hotspot_add_words _ _)) as [? rc1 ? ?|]; simpl;
    [|by (split; [|intros (? & ? & ? & ?)])].
  destruct (Z.eqb_spec rc1 0); [|by (split; [|intros (? & ? & ? & ?)])].
  destruct (env (S (S _)) hotspot_modify_words) as [? rc2 ? ?|]; simpl;
    [|by (split; [|intros (? & ? & ? & ?)])].
  destruct (Z.eqb_spec rc2 0); [|by (split; [|intros (? & ? & ? & ?)])].
  destruct (env (S (S (S _))) hotspot_up_words) as [? rc3 ? ?|]; simpl;
    [|by (split; [|intros (? & ? & ? & ?)])].
  destruct (Z.eqb_spec rc3 0); by (split; [|intros (? & ? & ? & ?)]).
Qed.

(** X2.  [create_hotspot] never raises; when it returns [True] it has set
    [is_hotspot_active] and nothing else, and when it returns [False] every
    attribute is as before.  It starts no thread and does not end the
    process. *)
Theorem create_hotspot_effect (env : environment) (w : world) :
  ∃ b, fst (create_hotspot env w) = Ok b ∧
       self (snd (create_hotspot env w))
       = (if b then set_is_hotspot_active true (self w) else self w) ∧
       pending (snd (create_hotspot env w)) = pending w ∧
       exited (snd (create_hotspot env w)) = exited w.
Proof.
  rewrite create_hotspot_cases. cbv zeta.
  repeat first [ match goal with
                 | |- context [match env ?n ?words with _ => _ end] =>
                     destruct (env n words)
                 | |- context [if ?rc =? 0 then _ else _] => destruct (rc =? 0)
                 end
               | by eexists ].
Qed.

(** Closes a goal that asks how many commands of a list have been run. *)
Ltac ran k :=
  exists k; split; [split; repeat constructor|]; first [split; [|done]|idtac];
  simpl; by rewrite <- ?app_assoc.

(** X3.  [create_hotspot] runs its commands in the order delete, add,
    modify, up and stops at the first one that fails: after a delete that
    cannot be run it has run that one command; after an add that is
    refused or cannot be run, two; after such a modify, three; and when
    delete, add and modify went well it has run all four, whatever the up
    command does.  It runs nothing else. *)
Theorem create_hotspot_commands (env : environment) (w : world) :
  let n := length (trace w) in
  let add := hotspot_add_words (interface (self w)) (hotspot_name (self w)) in
  let stopped_after k :=
    trace (snd (create_hotspot env w)) = trace w ++ take k (create_events (self w)) in
  (¬ runs (env n hotspot_delete_words) → stopped_after 1%nat) ∧
  (runs (env n hotspot_delete_words) → ¬ succeeds (env (S n) add) → stopped_after 2%nat) ∧
  (runs (env n hotspot_delete_words) → succeeds (env (S n) add) →
   ¬ succeeds (env (S (S n)) hotspot_modify_words) → stopped_after 3%nat) ∧
  (runs (env n hotspot_delete_words) → succeeds (env (S n) add) →
   succeeds (env (S (S n)) hotspot_modify_words) → stopped_after 4%nat).
Proof.
  cbv zeta. rewrite create_hotspot_cases. cbv zeta. unfold create_events.
  destruct (env (length (trace w)) hotspot_delete_words); simpl;
    [|split_and!; by intros].
  destruct (env (S _) (hotspot_add_words _ _)) as [? rc1 ? ?|]; simpl;
    [|split_and!; intros; try done; simpl; by rewrite <- ?app_assoc].
  destruct (Z.eqb_spec rc1 0);
    [|split_and!; intros; try done; simpl; by rewrite <- ?app_assoc].
  destruct (env (S (S _)) hotspot_modify_words) as [? rc2 ? ?|]; simpl;
    [|split_and!; intros; try done; simpl; by rewrite <- ?app_assoc].
  destruct (Z.eqb_spec rc2 0);
    [|split_and!; intros; try done; simpl; by rewrite <- ?app_assoc].
  destruct (env (S (S (S _))) hotspot_up_words) as [? rc3 ? ?|];
    [destruct (rc3 =? 0)|];
    (split_and!; intros; try done; simpl; by rewrite <- ?app_assoc).
Qed.

(** ** [shutdown_hotspot] and [shutdown_hotspot_delayed] *)

(** [shutdown_hotspot] by the behaviour of the two commands it runs. *)
Lemma shutdown_hotspot_cases (env : environment) (w : world) :
  shutdown_hotspot env w =
  let n := length (trace w) in
  let w1 := emit (EvRun hotspot_down_words None) w in
  let w2 := emit (EvRun hotspot_delete_words None) w1 in
  match env n hotspot_down_words with
  | Fails _ => (Ok tt, w1)
  | Exits _ _ _ _ =>
      match env (S n) hotspot_delete_words with
      | Fails _ => (Ok tt, w2)
      | Exits _ _ _ _ => (Ok tt, with_self (set_is_hotspot_active false) w2)
      end
  end.
Proof.
  unfold shutdown_hotspot, try_except, bind, subprocess_run, update_self, ret.
  cbn [args fmap list_fmap argv_strings].
  fold hotspot_down_words hotspot_delete_words. cbv zeta.
  destruct (env (length (trace w)) hotspot_down_words); [|done].
  cbn [andb]. rewrite trace_emit.
  by destruct (env (S (length (trace w))) hotspot_delete_words).
Qed.

(** X4.  [shutdown_hotspot] never raises and pays no attention to exit
    statuses: when both of its commands could be run, [is_hotspot_active]
    is [False] afterwards and no other attribute has changed; when one of
    them could not be run, every attribute is as before. *)
Theorem shutdown_hotspot_effect (env : environment) (w : world) :
  fst (shutdown_hotspot env w) = Ok tt ∧
  (runs (env (length (trace w)) hotspot_down_words) →
   runs (env (S (length (trace w))) hotspot_delete_words) →
   self (snd (shutdown_hotspot env w)) = set_is_hotspot_active false (self w)) ∧
  (¬ (runs (env (length (trace w)) hotspot_down_words) ∧
      runs (env (S (length (trace w))) hotspot_delete_words)) →
   self (snd (shutdown_hotspot env w)) = self w).
Proof.
  rewrite shutdown_hotspot_cases. cbv zeta.
  destruct (env (length (trace w)) hotspot_down_words); simpl;
    [|by (split_and!; [| |intros _])].
  destruct (env (S _) hotspot_delete_words); simpl.
  - split_and!; [done..|]. intros H. by destruct H.
  - by split_and!.
Qed.

(** [shutdown_hotspot_delayed] by the behaviour of its two commands. *)
Lemma shutdown_hotspot_delayed_cases (env : environment) (w : world) :
  shutdown_hotspot_delayed env w =
  let n := length (trace w) in
  let down := EvRun hotspot_down_words None in
  let delete := EvRun hotspot_delete_words None in
  match env (S n) hotspot_down_words with
  | Fails _ =>
      (Ok tt, World (self w) (trace w ++ [EvSleep 5; down; EvExit 0]) (pending w) true)
  | Exits _ _ _ _ =>
      match env (S (S n)) hotspot_delete_words with
      | Fails _ =>
          (Ok tt, World (self w) (trace w ++ [EvSleep 5; down; delete; EvExit 0])
                    (pending w) true)
      | Exits _ _ _ _ =>
          (Ok tt, World (set_is_hotspot_active false (self w))
                    (trace w ++ [EvSleep 5; down; delete; EvExit 0]) (pending w) true)
      end
  end.
Proof.
  unfold shutdown_hotspot_delayed, bind, sleep, os_exit.
  rewrite shutdown_hotspot_cases. cbv zeta. rewrite !trace_emit.
  destruct (env (S (length (trace w))) hotspot_down_words);
    [destruct (env (S (S (length (trace w)))) hotspot_delete_words)|];
    simpl; by rewrite <- ?app_assoc.
Qed.

Lemma shutdown_hotspot_delayed_exited (env : environment) (w : world) :
  exited (snd (shutdown_hotspot_delayed env w)) = true.
Proof. rewrite shutdown_hotspot_delayed_cases. cbv zeta. by repeat case_match. Qed.

(** X5.  [shutdown_hotspot_delayed] lets no failure of the tool keep it
    from ending the process: it sleeps 5 time units, runs the down
    command, runs the delete command exactly when the down command could
    be run, and exits with code 0, whether the commands go well, are
    refused or cannot be started.  (Every command is taken to end.) *)
Theorem shutdown_hotspot_delayed_exits (env : environment) (w : world) :
  let n := length (trace w) in
  let w' := snd (shutdown_hotspot_delayed env w) in
  fst (shutdown_hotspot_delayed env w) = Ok tt ∧
  exited w' = true ∧
  (runs (env (S n) hotspot_down_words) →
   trace w' = trace w ++ [EvSleep 5; EvRun hotspot_down_words None;
                          EvRun hotspot_delete_words None; EvExit 0]) ∧
  (¬ runs (env (S n) hotspot_down_words) →
   trace w' = trace w ++ [EvSleep 5; EvRun hotspot_down_words None; EvExit 0]).
Proof.
  cbv zeta. rewrite shutdown_hotspot_delayed_cases. cbv zeta.
  destruct (env (S (length (trace w))) hotspot_down_words);
    [destruct (env (S (S (length (trace w)))) hotspot_delete_words)|];
    simpl; split_and!; intros; by try done.
Qed.


(** ** What the operations write *)

Section Writes.

Variable env : environment.
Variable R : world → world → Prop.
Hypothesis R_refl : ∀ w, R w w.
Hypothesis R_trans : ∀ a b c, R a b → R b c → R a c.
Hypothesis R_emit_run : ∀ w words t, R w (emit (EvRun words t) w).
Hypothesis R_emit_sleep : ∀ w secs, R w (emit (EvSleep secs) w).
Hypothesis R_connected : ∀ w, R w (with_self (set_connection_status "connected") w).
Hypothesis R_hotspot_up : ∀ w, R w (with_self (set_is_hotspot_active true) w).
Hypothesis R_hotspot_down : ∀ w, R w (with_self (set_is_hotspot_active false) w).
Hypothesis R_thread_start : ∀ t, respects R (thread_start t).
Hypothesis R_os_exit : ∀ code, respects R (os_exit code).
Hypothesis R_connect :
  ∀ ssid password, respects R (connect_to_network env ssid password).
Hypothesis R_pop :
  ∀ w t rest, pending w = t :: rest → R w (World (self w) (trace w) rest (exited w)).

Ltac writes_step :=
  first
    [ apply (respects_ret R R_refl) | apply (respects_raise R R_refl)
    | apply (respects_lift R R_refl) | apply (respects_get_self R R_refl)
    | apply (respects_sleep R R_emit_sleep)
    | apply (respects_subprocess_run R R_refl R_emit_run)
    | apply (respects_dict_get R R_refl)
    | apply (respects_bind R R_trans); [|intros ?]
    | apply (respects_try_except R R_trans); [|intros ?]
    | match goal with
      | |- respects _ (if ?b then _ else _) => destruct b
      | |- respects _ (match ?x with _ => _ end) => destruct x
      end ].

Lemma writes_connect_to_network (ssid password : pyval) :
  respects R (connect_to_network env ssid password).
Proof.
  unfold connect_to_network.
  repeat first [ exact R_connected | writes_step ].
Qed.

Lemma writes_create_hotspot : respects R (create_hotspot env).
Proof.
  unfold create_hotspot.
  repeat first [ exact R_hotspot_up | writes_step ].
Qed.

Lemma writes_shutdown_hotspot : respects R (shutdown_hotspot env).
Proof.
  unfold shutdown_hotspot.
  repeat first [ exact R_hotspot_down | writes_step ].
Qed.

Lemma writes_shutdown_hotspot_delayed : respects R (shutdown_hotspot_delayed env).
Proof.
  unfold shutdown_hotspot_delayed.
  repeat first [ apply writes_shutdown_hotspot | apply R_os_exit | writes_step ].
Qed.

Lemma writes_scan_networks : respects R (scan_networks env).
Proof. unfold scan_networks, scan_wifi_networks. repeat writes_step. Qed.

Lemma writes_connect_wifi (req : request) : respects R (connect_wifi env req).
Proof.
  unfold connect_wifi.
  repeat first [ apply R_connect | apply R_thread_start | writes_step ].
Qed.

Lemma writes_dispatch (req : request) : respects R (dispatch env req).
Proof.
  unfold dispatch.
  destruct (List.find _ url_map) as [[[p methods] ep]|].
  - assert (respects R (view env ep req)) as Hview.
    { destruct ep; simpl; unfold render_portal_page, get_status;
        repeat first [ apply writes_connect_wifi | apply writes_scan_networks
                     | writes_step ]. }
    repeat case_match; try done; apply (respects_ret R R_refl).
  - repeat case_match; apply (respects_ret R R_refl).
Qed.

Lemma writes_run_start : respects R (run_start env).
Proof.
  unfold run_start.
  repeat first [ apply writes_create_hotspot | apply writes_shutdown_hotspot
               | apply R_os_exit | writes_step ].
Qed.

Lemma writes_step_op (o : op) (w : world) : R w (step env o w).
Proof.
  pose proof (R_pop w) as Hpop.
  unfold step. destruct (exited w); [apply R_refl|].
  destruct o as [req| |].
  - apply writes_dispatch.
  - destruct (pending w) as [|t rest] eqn:Hp; [apply R_refl|].
    eapply R_trans; [exact (Hpop t rest eq_refl)|].
    destruct t. apply writes_shutdown_hotspot_delayed.
  - apply (respects_bind R R_trans);
      [apply writes_shutdown_hotspot|intros _; apply R_os_exit].
Qed.

End Writes.

(** An invariant of the start and of every step holds all life long. *)
Lemma lifetime_invariant (env : environment) (P : world → Prop) :
  P start →
  (P start → P (snd (run_start env start))) →
  (∀ o w, P w → P (step env o w)) →
  ∀ ops, Forall P (lifetime env ops).
Proof.
  intros Hstart Hrun Hstep ops. unfold lifetime. constructor; [done|].
  specialize (Hrun Hstart). revert Hrun. generalize (snd (run_start env start)).
  induction ops as [|o rest IH]; intros w Hw; simpl.
  - by repeat constructor.
  - constructor; [done|]. by apply IH, Hstep.
Qed.

(** *** The attributes that never change *)

Lemma fixed_attributes_refl (w : world) : fixed_attributes w w.
Proof. unfold fixed_attributes. by split_and!; [..|left]. Qed.

Lemma fixed_attributes_trans (a b c : world) :
  fixed_attributes a b → fixed_attributes b c → fixed_attributes a c.
Proof.
  unfold fixed_attributes.
  intros (-> & -> & -> & -> & Hab) (-> & -> & -> & -> & Hbc).
  split_and!; [done..|]. destruct Hbc as [->|]; [done|by right].
Qed.

Lemma fixed_attributes_same_self (w w' : world) :
  self w' = self w → fixed_attributes w w'.
Proof. intros Heq. unfold fixed_attributes. rewrite Heq. by split_and!; [..|left]. Qed.

Lemma fixed_attributes_connect (env : environment) (ssid password : pyval) :
  respects fixed_attributes (connect_to_network env ssid password).
Proof.
  apply (writes_connect_to_network env fixed_attributes
           fixed_attributes_refl fixed_attributes_trans).
  - intros. by apply fixed_attributes_same_self.
  - intros. by apply fixed_attributes_same_self.
  - intros w. unfold fixed_attributes. simpl. by split_and!; [..|right].
Qed.

Lemma fixed_attributes_step (env : environment) (o : op) (w : world) :
  fixed_attributes w (step env o w).
Proof.
  apply (writes_step_op env fixed_attributes
           fixed_attributes_refl fixed_attributes_trans);
    try (unfold respects; intros; by apply fixed_attributes_same_self).
  - intros w0. unfold fixed_attributes. simpl. by split_and!; [..|left].
  - apply fixed_attributes_connect.
Qed.

Lemma fixed_attributes_run_start (env : environment) :
  respects fixed_attributes (run_start env).
Proof.
  apply (writes_run_start env fixed_attributes
           fixed_attributes_refl fixed_attributes_trans);
    try (unfold respects; intros; by apply fixed_attributes_same_self);
    intros w; unfold fixed_attributes; simpl; by split_and!; [..|left].
Qed.

(** X6.  All life long the name and the password of the hotspot, the
    interface and the address are the ones [__init__] has set, and the
    status is "disconnected" or "connected". *)
Theorem attributes_fixed_for_life (env : environment) (ops : list op) :
  Forall (fun w =>
            hotspot_name (self w) = "Setup-Robot-WiFi" ∧
            hotspot_password (self w) = "" ∧
            interface (self w) = "wlan0" ∧
            ap_ip (self w) = "10.42.0.1" ∧
            (connection_status (self w) = "disconnected" ∨
             connection_status (self w) = "connected"))
         (lifetime env ops).
Proof.
  apply lifetime_invariant.
  - simpl. by split_and!; [..|left].
  - intros H.
    destruct (fixed_attributes_run_start env start) as (H1 & H2 & H3 & H4 & Hs).
    rewrite H1, H2, H3, H4. split_and!; try apply H.
    destruct Hs as [Hs|Hs]; rewrite Hs; [apply H|by right].
  - intros o w H.
    destruct (fixed_attributes_step env o w) as (H1 & H2 & H3 & H4 & Hs).
    rewrite H1, H2, H3, H4. split_and!; try apply H.
    destruct Hs as [Hs|Hs]; rewrite Hs; [apply H|by right].
Qed.

(** *** The hotspot is never brought up again *)

Lemma hotspot_stays_down_step (env : environment) (o : op) (w : world) :
  hotspot_stays_down w (step env o w).
Proof.
  assert (∀ ssid password,
            respects hotspot_stays_down (connect_to_network env ssid password)) as Hc.
  { intros. apply (writes_connect_to_network env hotspot_stays_down);
      unfold hotspot_stays_down; by auto. }
  apply (writes_step_op env hotspot_stays_down);
    unfold respects, hotspot_stays_down in *; simpl; by eauto.
Qed.

Lemma hotspot_stays_down_trans (a b c : world) :
  hotspot_stays_down a b → hotspot_stays_down b c → hotspot_stays_down a c.
Proof. unfold hotspot_stays_down. auto. Qed.

Lemma hotspot_stays_down_shutdown (env : environment) :
  respects hotspot_stays_down (shutdown_hotspot env ;; os_exit 0).
Proof.
  apply (respects_bind hotspot_stays_down hotspot_stays_down_trans).
  - apply (writes_shutdown_hotspot env hotspot_stays_down);
      unfold hotspot_stays_down; by auto.
  - intros _ w. by unfold hotspot_stays_down.
Qed.

Lemma run_start_flag (env : environment) (w : world) :
  is_hotspot_active (self (snd (run_start env w))) = true →
  is_hotspot_active (self w) = true ∨ fst (create_hotspot env w) = Ok true.
Proof.
  unfold run_start. unfold bind at 1.
  destruct (create_hotspot_returns env w) as [b Hb].
  pose proof (create_hotspot_false_self env w) as Hself.
  destruct (create_hotspot env w) as [r w1]. simpl in *. subst r.
  destruct b; [by right|]. specialize (Hself eq_refl). intros Hactive. left.
  destruct (is_hotspot_active (self w)) eqn:Hw; [done|].
  rewrite <- Hself in Hw.
  by rewrite (hotspot_stays_down_shutdown env w1 Hw) in Hactive.
Qed.

(** X7.  The hotspot is marked active only when [create_hotspot] has
    returned [True] at the start of [run]: no request, no run of the
    timer and no interrupt ever sets [is_hotspot_active]. *)
Theorem hotspot_active_only_if_created (env : environment) (ops : list op) :
  Forall (fun w =>
            is_hotspot_active (self w) = true →
            fst (create_hotspot env start) = Ok true)
         (lifetime env ops).
Proof.
  apply lifetime_invariant.
  - discriminate.
  - intros _ Hactive. by destruct (run_start_flag env start Hactive).
  - intros o w H Hactive. apply H.
    destruct (is_hotspot_active (self w)) eqn:Hw; [done|].
    by rewrite (hotspot_stays_down_step env o w Hw) in Hactive.
Qed.

(** *** "connected" has a successful join behind it *)

Lemma join_evidence_refl (env : environment) (w : world) : join_evidence env w w.
Proof. split; [done|]. by left. Qed.

Lemma joined_prefix (env : environment) (w w' : world) :
  trace w `prefix_of` trace w' → joined env w → joined env w'.
Proof.
  intros Hpre (i & words & secs & out & err & Hi & Henv & Hsecs).
  exists i, words, secs, out, err. split_and!; [|done..].
  by eapply prefix_lookup_Some.
Qed.

Lemma join_evidence_trans (env : environment) (a b c : world) :
  join_evidence env a b → join_evidence env b c → join_evidence env a c.
Proof.
  intros [Hab Hb] [Hbc Hc]. split; [by etrans|].
  intros [Hstatus|Hjoined]%Hc; [|by right].
  destruct (Hb Hstatus) as [?|Hjoined]; [by left|].
  right. by eapply joined_prefix.
Qed.

Lemma join_evidence_same_status (env : environment) (w w' : world) :
  trace w `prefix_of` trace w' →
  connection_status (self w') = connection_status (self w) →
  join_evidence env w w'.
Proof. intros Hpre Heq. split; [done|]. rewrite Heq. by left. Qed.

Lemma join_evidence_connect (env : environment) (ssid password : pyval) :
  respects (join_evidence env) (connect_to_network env ssid password).
Proof.
  intros w. destruct ssid as [| | |name|];
    try (rewrite connect_to_network_not_str by done; apply join_evidence_refl).
  rewrite connect_to_network_name. cbv zeta.
  destruct (env (length (trace w)) (delete_words name));
    [|apply join_evidence_same_status; [by apply prefix_app_r|done]].
  destruct (argv_strings _) as [words|];
    [|apply join_evidence_same_status; [simpl; by do 2 apply prefix_app_r|done]].
  destruct (env (S (S (length (trace w)))) words) as [s1 rc1 out1 err1|] eqn:Hjoin;
    [|apply join_evidence_same_status; [simpl; by do 3 apply prefix_app_r|done]].
  destruct (Z.ltb_spec 30 s1);
    [apply join_evidence_same_status; [simpl; by do 3 apply prefix_app_r|done]|].
  destruct (Z.eqb_spec rc1 0) as [->|];
    [|apply join_evidence_same_status; [simpl; by do 3 apply prefix_app_r|done]].
  assert (∀ r : result bool,
            join_evidence env w
              (snd (r, emit (EvRun (show_words (interface (self w))) None)
                         (emit (EvSleep 2)
                            (with_self (set_connection_status "connected")
                               (emit (EvRun words (Some 30))
                                  (emit (EvSleep 1)
                                     (emit (EvRun (delete_words name) None) w)))))))) as Hw4.
  { intros r. split; [simpl; by do 5 apply prefix_app_r|]. intros _. right.
    exists (S (S (length (trace w)))), words, s1, out1, err1.
    split_and!; [|done..]. simpl. rewrite <- !app_assoc. simpl.
    rewrite lookup_app_r by lia.
    by replace (S (S (length (trace w))) - length (trace w))%nat with 2%nat by lia. }
  destruct (env (S (S (S (S _)))) _); apply Hw4.
Qed.

Lemma join_evidence_step (env : environment) (o : op) (w : world) :
  join_evidence env w (step env o w).
Proof.
  apply (writes_step_op env (join_evidence env)
           (join_evidence_refl env) (join_evidence_trans env));
    try (unfold respects; intros; apply join_evidence_same_status;
         [simpl; first [done|by apply prefix_app_r]|done]).
  apply join_evidence_connect.
Qed.

Lemma join_evidence_run_start (env : environment) :
  respects (join_evidence env) (run_start env).
Proof.
  apply (writes_run_start env (join_evidence env)
           (join_evidence_refl env) (join_evidence_trans env));
    unfold respects; intros; apply join_evidence_same_status;
    first [done|simpl; by apply prefix_app_r].
Qed.

(** X8.  All life long the status is "connected" only when the process
    has run a join command (the one command with the 30 unit wait) that
    the tool ended with status 0 within the wait. *)
Theorem connected_only_after_join (env : environment) (ops : list op) :
  Forall (fun w => connection_status (self w) = "connected" → joined env w)
         (lifetime env ops).
Proof.
  apply lifetime_invariant.
  - discriminate.
  - intros _ Hc. destruct (join_evidence_run_start env start) as [_ Hev].
    by destruct (Hev Hc).
  - intros o w H Hc. destruct (join_evidence_step env o w) as [Hpre Hev].
    destruct (Hev Hc) as [Hw|]; [|done].
    eapply joined_prefix; [done|by apply H].
Qed.

(** ** [run]: the start, the interrupt and the timer *)

Lemma states_after_exit (env : environment) (w : world) (ops : list op) :
  exited w = true → states env w ops = replicate (S (length ops)) w.
Proof.
  intros Hw. induction ops as [|o rest IH]; simpl; [done|].
  unfold step at 1. rewrite Hw. by rewrite IH.
Qed.

(** X9.  When [create_hotspot] returns [False], [run] tries to take the
    hotspot down and ends: the process has exited before [app.run], so no
    request is ever served. *)
Theorem no_hotspot_no_service (env : environment) :
  fst (create_hotspot env start) = Ok false →
  exited (snd (run_start env start)) = true ∧
  EvRun hotspot_down_words None ∈ trace (snd (run_start env start)) ∧
  ∀ ops, states env (snd (run_start env start)) ops
         = replicate (S (length ops)) (snd (run_start env start)).
Proof.
  intros Hcreate.
  assert (exited (snd (run_start env start)) = true ∧
          EvRun hotspot_down_words None ∈ trace (snd (run_start env start)))
    as [Hexit Hdown].
  { unfold run_start, bind.
    destruct (create_hotspot env start) as [r w1]. simpl in Hcreate. subst r.
    unfold os_exit. rewrite shutdown_hotspot_cases. cbv zeta.
    destruct (env (length (trace w1)) hotspot_down_words);
      [destruct (env (S (length (trace w1))) hotspot_delete_words)|];
      (split; [done|]); simpl; rewrite !elem_of_app, !elem_of_cons; tauto. }
  split_and!; [done..|]. intros ops. by apply states_after_exit.
Qed.

Lemma no_hotspot_no_service_witness :
  exited (snd (run_start env_add_refused start)) = true ∧
  EvRun hotspot_down_words None ∈ trace (snd (run_start env_add_refused start)) ∧
  ∀ ops, states env_add_refused (snd (run_start env_add_refused start)) ops
         = replicate (S (length ops)) (snd (run_start env_add_refused start)).
Proof. apply (no_hotspot_no_service env_add_refused). reflexivity. Defined.

(** X10.  When [create_hotspot] returns [True], [run] goes on to serve:
    the hotspot is active, the status is "disconnected", the only effects
    so far are the four commands of the hotspot, no thread is pending and
    the process has not ended. *)
Theorem hotspot_created_then_serving (env : environment) :
  fst (create_hotspot env start) = Ok true →
  run_start env start
  = (Ok tt, World (set_is_hotspot_active true init) (create_events init) [] false).
Proof.
  intros Hcreate. pose proof (create_hotspot_true_world env start Hcreate) as Hworld.
  unfold run_start, bind.
  destruct (create_hotspot env start) as [r w1]. simpl in *. by subst.
Qed.

Lemma hotspot_created_then_serving_witness :
  run_start env_no_old_profile start
  = (Ok tt, World (set_is_hotspot_active true init) (create_events init) [] false).
Proof. apply (hotspot_created_then_serving env_no_old_profile). reflexivity. Defined.

(** X11.  An interrupt of the serving process ends it, and no failure
    of the tool gets in the way: the [finally] clause of [run] runs the
    down command, runs the delete command exactly when the down command
    could be run, and the process exits with code 0.  (Every command is
    taken to end.) *)
Theorem interrupt_ends_process (env : environment) (w : world) :
  exited w = false →
  let n := length (trace w) in
  let w' := step env Interrupt w in
  exited w' = true ∧
  (runs (env n hotspot_down_words) →
   trace w' = trace w ++ [EvRun hotspot_down_words None;
                          EvRun hotspot_delete_words None; EvExit 0]) ∧
  (¬ runs (env n hotspot_down_words) →
   trace w' = trace w ++ [EvRun hotspot_down_words None; EvExit 0]).
Proof.
  intros Hw. cbv zeta. unfold step. rewrite Hw. unfold bind, os_exit.
  rewrite shutdown_hotspot_cases. cbv zeta.
  destruct (env (length (trace w)) hotspot_down_words);
    [destruct (env (S (length (trace w))) hotspot_delete_words)|];
    simpl; split_and!; intros; try done; simpl; by rewrite <- ?app_assoc.
Qed.

Lemma interrupt_ends_process_witness :
  let w' := step env_all_refused Interrupt start in
  exited w' = true ∧
  (runs (env_all_refused 0%nat hotspot_down_words) →
   trace w' = trace start ++ [EvRun hotspot_down_words None;
                              EvRun hotspot_delete_words None; EvExit 0]) ∧
  (¬ runs (env_all_refused 0%nat hotspot_down_words) →
   trace w' = trace start ++ [EvRun hotspot_down_words None; EvExit 0]).
Proof. apply (interrupt_ends_process env_all_refused start). reflexivity. Defined.

Lemma dispatch_post_connect (env : environment) (body : result document) (w : world) :
  dispatch env (Request "POST" "/connect" body) w
  = connect_wifi env (Request "POST" "/connect" body) w.
Proof. reflexivity. Qed.

(** X12.  After a POST /connect whose join reports success, the next run
    of the timer ends the process, and from then on no request, timer or
    interrupt has any effect. *)
Theorem connect_then_timer_ends_process
    (env : environment) (d : gmap string pyval) (name : string) (w : world) :
  exited w = false →
  d !! "ssid" = Some (PStr name) →
  name ≠ "" →
  fst (connect_to_network env (PStr name) (default (PStr "") (d !! "password")) w)
  = Ok true →
  let w1 := step env (Serve (Request "POST" "/connect" (Ok (Dict d)))) w in
  let w2 := step env TimerFires w1 in
  exited w1 = false ∧ pending w1 ≠ [] ∧ exited w2 = true ∧ ∀ o, step env o w2 = w2.
Proof.
  intros Hw Hssid Hname%nonempty_true Hjoin. cbv zeta.
  pose proof (connect_to_network_no_thread env (PStr name)
                (default (PStr "") (d !! "password")) w) as (Hp & He & _).
  assert (step env (Serve (Request "POST" "/connect" (Ok (Dict d)))) w
          = snd (connect_wifi env (Request "POST" "/connect" (Ok (Dict d))) w)) as ->.
  { unfold step. by rewrite Hw, dispatch_post_connect. }
  rewrite (connect_wifi_dict env (Request "POST" "/connect" (Ok (Dict d))) d w eq_refl),
    Hssid.
  cbn [default from_option id truthy]. rewrite Hname. cbn [negb].
  destruct (connect_to_network _ _ _ w) as [joined1 w1]. simpl in Hjoin, Hp, He.
  subst joined1. cbn [snd].
  assert (exited (step env TimerFires
            (World (self w1) (trace w1 ++ [EvThread shutdown_hotspot_delayed_target])
               (pending w1 ++ [shutdown_hotspot_delayed_target]) (exited w1))) = true)
    as Hexit.
  { unfold step. cbn [exited pending]. rewrite He, Hw.
    destruct (pending w1 ++ [shutdown_hotspot_delayed_target]) as [|[] rest] eqn:Hpend.
    - by destruct (pending w1).
    - apply shutdown_hotspot_delayed_exited. }
  split_and!.
  - simpl. by rewrite He.
  - simpl. by destruct (pending w1).
  - done.
  - intros o. unfold step at 1. by rewrite Hexit.
Qed.

Lemma connect_then_timer_ends_process_witness :
  let w1 := step env_all_good (Serve (post_connect "Home-5G" "secret")) start in
  let w2 := step env_all_good TimerFires w1 in
  exited w1 = false ∧ pending w1 ≠ [] ∧ exited w2 = true ∧
  ∀ o, step env_all_good o w2 = w2.
Proof.
  apply (connect_then_timer_ends_process env_all_good
           (<["ssid" := PStr "Home-5G"]> (<["password" := PStr "secret"]> ∅))
           "Home-5G" start); [reflexivity|reflexivity|discriminate|reflexivity].
Defined.


(** ** Answers of the service *)

Lemma try_except_answers {A} (m : M A) (h : exn → A) (w : world) :
  ∃ a, fst (try_except m (fun e => ret (h e)) w) = Ok a.
Proof. unfold try_except, ret. destruct (m w) as [[a|e] w1]; by eexists. Qed.

(** X13.  No exception leaves a handler: whatever the method, the
    path and the body, and whatever the tool answers (any exit status,
    any output, a join that times out, a command that cannot be started),
    the service gives a response and raises nothing.  (Every command is
    taken to end; only the join has a timeout.) *)
Theorem no_exception_leaves_handler (env : environment) (req : request) (w : world) :
  ∃ resp, fst (dispatch env req w) = Ok resp.
Proof.
  assert (∀ ep, ∃ resp, fst (view env ep req w) = Ok resp) as Hview.
  { intros []; simpl; try by eexists.
    - apply try_except_answers.
    - apply try_except_answers. }
  unfold dispatch.
  destruct (List.find _ url_map) as [[[p methods] ep]|].
  - repeat case_match; first [apply Hview | by eexists].
  - repeat case_match; by eexists.
Qed.

Lemma same_state_refl (w : world) : same_state w w.
Proof. done. Qed.

Lemma same_state_trans (a b c : world) :
  same_state a b → same_state b c → same_state a c.
Proof. unfold same_state. intros (-> & -> & ->) (-> & -> & ->). done. Qed.

Lemma scan_networks_same_state (env : environment) :
  respects same_state (scan_networks env).
Proof.
  apply (writes_scan_networks env same_state same_state_refl same_state_trans).
  by intros.
Qed.

(** X14.  Only POST /connect can change an attribute, start a thread or
    end the process: every other request leaves attributes, pending
    threads and the state of the process as they are. *)
Theorem only_post_connect_writes (env : environment) (req : request) (w : world) :
  method req ≠ "POST" ∨ path req ≠ "/connect" →
  same_state w (snd (dispatch env req w)).
Proof.
  intros Hreq. unfold dispatch, url_map. cbn [List.find fst].
  destruct (String.eqb_spec "/" (path req)); [repeat case_match; by simpl|].
  destruct (String.eqb_spec "/portal" (path req)); [repeat case_match; by simpl|].
  destruct (String.eqb_spec "/scan" (path req)).
  { repeat case_match; try by simpl. all: apply scan_networks_same_state. }
  destruct (String.eqb_spec "/connect" (path req)) as [Hpath|].
  { destruct Hreq as [Hm|Hp]; [|by destruct Hp].
    unfold mem. cbn [existsb]. apply String.eqb_neq in Hm. rewrite Hm.
    rewrite andb_false_r. simpl. by case_match. }
  destruct (String.eqb_spec "/status" (path req)); repeat case_match; by simpl.
Qed.

Lemma only_post_connect_writes_witness :
  same_state start (snd (dispatch (scanning out_mixed) (get_request "/scan") start)).
Proof.
  apply (only_post_connect_writes (scanning out_mixed) (get_request "/scan") start).
  left. discriminate.
Defined.

Lemma dispatch_get_scan (env : environment) (w : world) :
  dispatch env (get_request "/scan") w = scan_networks env w.
Proof. reflexivity. Qed.

(** X15.  When the tool ends the listing with a status other than 0,
    GET /scan answers with success and an empty list: the failure of the
    tool cannot be told from an empty neighbourhood. *)
Theorem scan_failure_reported_as_empty
    (env : environment) (w : world) secs rc out err :
  env (length (trace w)) scan_words = Exits secs rc out err →
  rc ≠ 0 →
  dispatch env (get_request "/scan") w
  = (Ok (Json [("success", JVal (PBool true)); ("networks", JNetworks [])]),
     emit (EvRun scan_words None) w).
Proof.
  intros Henv Hrc%Z.eqb_neq. rewrite dispatch_get_scan.
  unfold scan_networks, try_except, bind, ret.
  by rewrite scan_wifi_networks_cases, Henv, Hrc.
Qed.

Lemma scan_failure_reported_as_empty_witness :
  dispatch env_all_refused (get_request "/scan") start
  = (Ok (Json [("success", JVal (PBool true)); ("networks", JNetworks [])]),
     emit (EvRun scan_words None) start).
Proof.
  apply (scan_failure_reported_as_empty env_all_refused start 1 1 "" "Error");
    [reflexivity|discriminate].
Defined.

(** X16.  When the tool can be run and prints ASCII text in lines of no
    more than 4300 characters, GET /scan answers with the success envelope
    and a list, and the listing command is its one effect.  (A longer
    line can hold a signal field that [int] refuses.) *)
Theorem scan_answers_on_ascii (env : environment) (w : world) secs rc out err :
  env (length (trace w)) scan_words = Exits secs rc out err →
  Py.forall_chars is_ascii out = true →
  Forall (fun line => (String.length line ≤ 4300)%nat) (Py.split "010" (Py.strip out)) →
  ∃ nets, dispatch env (get_request "/scan") w
          = (Ok (Json [("success", JVal (PBool true)); ("networks", JNetworks nets)]),
             emit (EvRun scan_words None) w).
Proof.
  intros Henv Hascii Hshort. rewrite dispatch_get_scan.
  unfold scan_networks, try_except, bind, ret.
  destruct (scan_returns_on_ascii env w secs rc out err Henv Hascii Hshort)
    as [nets Hnets].
  exists nets. revert Hnets. rewrite scan_wifi_networks_cases, Henv.
  destruct (rc =? 0); simpl; [by intros ->|by intros [= <-]].
Qed.

Lemma scan_answers_on_ascii_witness :
  ∃ nets, dispatch (scanning out_mixed) (get_request "/scan") start
          = (Ok (Json [("success", JVal (PBool true)); ("networks", JNetworks nets)]),
             emit (EvRun scan_words None) start).
Proof.
  apply (scan_answers_on_ascii (scanning out_mixed) start 1 0 out_mixed "");
    [reflexivity|reflexivity|].
  vm_compute. repeat constructor.
Defined.

(** X17.  When the tool cannot be run, GET /scan answers with the error
    envelope that carries the text of the exception, and nothing but the
    attempt has happened. *)
Theorem scan_tool_missing (env : environment) (w : world) (msg : string) :
  env (length (trace w)) scan_words = Fails msg →
  dispatch env (get_request "/scan") w
  = (Ok (Json [("success", JVal (PBool false)); ("error", JExn (OtherError msg))]),
     emit (EvRun scan_words None) w).
Proof.
  intros Henv. rewrite dispatch_get_scan.
  unfold scan_networks, try_except, bind, ret.
  by rewrite scan_wifi_networks_cases, Henv.
Qed.

Lemma scan_tool_missing_witness :
  dispatch env_tool_missing (get_request "/scan") start
  = (Ok (Json [("success", JVal (PBool false));
               ("error", JExn (OtherError "[Errno 2] No such file or directory: 'nmcli'"))]),
     emit (EvRun scan_words None) start).
Proof. apply (scan_tool_missing env_tool_missing start). reflexivity. Defined.

(** ** More about the list the scan returns *)

Lemma lstrip_head (s : string) (c : ascii) (r : string) :
  Py.lstrip s = String c r → Py.isspace c = false.
Proof.
  induction s as [|c0 s IH]; simpl; [discriminate|].
  destruct (Py.isspace c0) eqn:Hc0; [done|]. by intros [= <- _].
Qed.

Lemma rstrip_keeps_head (c : ascii) (r : string) :
  Py.isspace c = false → ∃ r', Py.rstrip (String c r) = String c r'.
Proof.
  intros Hc. simpl. rewrite Hc. destruct (Py.rstrip r); by eexists.
Qed.

Lemma rstrip_idempotent (s : string) : Py.rstrip (Py.rstrip s) = Py.rstrip s.
Proof.
  induction s as [|c s IH]; [done|]. cbn [Py.rstrip].
  destruct (Py.rstrip s) as [|c' r] eqn:Hr.
  - destruct (Py.isspace c) eqn:Hc; [done|]. simpl. by rewrite Hc.
  - change (Py.rstrip (String c (String c' r))) with
      (match Py.rstrip (String c' r) with
       | EmptyString => if Py.isspace c then EmptyString else String c EmptyString
       | String a b => String c (String a b)
       end).
    by rewrite IH.
Qed.

Lemma strip_idempotent (s : string) : Py.strip (Py.strip s) = Py.strip s.
Proof.
  unfold Py.strip. destruct (Py.lstrip s) as [|c r] eqn:Hl; [done|].
  apply lstrip_head in Hl.
  destruct (rstrip_keeps_head c r Hl) as [r' Hr]. rewrite Hr.
  cbn [Py.lstrip]. rewrite Hl, <- Hr. apply rstrip_idempotent.
Qed.

Lemma raw_record_trimmed (lines : list string) (r : network) :
  r ∈ records_of_lines lines →
  Py.strip (ssid r) = ssid r ∧ Py.strip (security r) = security r.
Proof.
  induction lines as [|line rest IH]; cbn [records_of_lines].
  - intros H. by apply elem_of_nil in H.
  - destruct (line_record line) as [[x|]|e] eqn:Hline; try done.
    intros [->|Hr]%elem_of_cons; [|by apply IH].
    revert Hline. unfold line_record.
    destruct (negb (Py.nonempty line)); [discriminate|].
    destruct (Py.split ":" line) as [|p0 [|p1 [|p2 ps]]]; try discriminate.
    destruct (parse_signal p1) as [sg|e]; [|discriminate].
    intros [= <-]. simpl. split; [apply strip_idempotent|].
    unfold parse_security. destruct (Py.nonempty p2); [apply strip_idempotent|done].
Qed.

(** X18.  Every record the scan returns has a name that is not empty,
    has no white space around its name and its security label, and has a
    signal that is -100 or not negative. *)
Theorem scan_records_well_formed
    (env : environment) (w w' : world) (nets : list network) :
  scan_wifi_networks env w = (Ok nets, w') →
  Forall well_formed nets.
Proof.
  rewrite scan_wifi_networks_cases.
  destruct (env (length (trace w)) scan_words) as [secs rc out err|msg];
    [|discriminate].
  destruct (rc =? 0); [|by intros [= <- _]].
  intros [= Hparse _]. apply parse_scan_output_spec in Hparse as (_ & _ & Hin).
  apply Forall_forall. intros r Hr.
  apply Hin in Hr as [Hname (_ & pre & post & Hrecs & _)%first_named_split].
  assert (r ∈ records_of_lines (Py.split "010" (Py.strip out))) as Hraw.
  { fold (raw_records out). rewrite Hrecs. apply elem_of_app. right. by left. }
  destruct (raw_record_trimmed _ r Hraw) as [? ?].
  split_and!; [done..|]. by eapply raw_record_signal_range.
Qed.

Lemma scan_records_well_formed_witness :
  Forall well_formed [Network "Cafe" 70 "Open"; Network "Home" 40 "WPA2"].
Proof.
  apply (scan_records_well_formed (scanning out_mixed) start
           (emit (EvRun scan_words None) start)).
  vm_compute. reflexivity.
Defined.

(** X19.  The sort of the scan is stable: the records of one signal
    level come in the order in which the tool printed them. *)
Theorem scan_equal_signals_keep_order
    (env : environment) (w w' : world) (nets : list network) secs out err (z : Z) :
  scan_wifi_networks env w = (Ok nets, w') →
  env (length (trace w)) scan_words = Exits secs 0 out err →
  filter (fun r => signal r = z) nets
  = filter (fun r => signal r = z) (keep_first (raw_records out) ∅).
Proof.
  rewrite scan_wifi_networks_cases. intros Hscan Henv.
  rewrite Henv in Hscan. simpl in Hscan. injection Hscan as Hparse _.
  apply parse_scan_output_keep_first in Hparse as ->.
  apply sort_by_signal_stable.
Qed.

Lemma scan_equal_signals_keep_order_witness :
  filter (fun r => signal r = 50)
    [Network "Gamma" 70 "WPA2"; Network "Beta" 50 "WPA2"; Network "Alpha" 50 "Open"]
  = filter (fun r => signal r = 50) (keep_first (raw_records out_equal_signals) ∅).
Proof.
  apply (scan_equal_signals_keep_order (scanning out_equal_signals) start
           (emit (EvRun scan_words None) start) _ 1 out_equal_signals "" 50);
    vm_compute; reflexivity.
Defined.

(** X20.  Output that is empty or nothing but white space gives the
    empty list, whatever the exit status. *)
Theorem scan_blank_output (env : environment) (w : world) secs rc out err :
  env (length (trace w)) scan_words = Exits secs rc out err →
  Py.strip out = "" →
  fst (scan_wifi_networks env w) = Ok [].
Proof.
  intros Henv Hblank. rewrite scan_wifi_networks_cases, Henv.
  destruct (rc =? 0); [|done]. simpl. unfold parse_scan_output. by rewrite Hblank.
Qed.

Lemma scan_blank_output_witness :
  fst (scan_wifi_networks (scanning out_blank) start) = Ok [].
Proof.
  apply (scan_blank_output (scanning out_blank) start 1 0 out_blank ""); reflexivity.
Defined.

(** ** More about joining *)

Lemma connect_to_network_true_self
    (env : environment) (ssid password : pyval) (w w1 : world) :
  connect_to_network env ssid password w = (Ok true, w1) →
  self w1 = set_connection_status "connected" (self w).
Proof.
  destruct ssid as [| | |name|];
    try (rewrite connect_to_network_not_str by done; discriminate).
  rewrite connect_to_network_name. cbv zeta.
  repeat case_match; try discriminate. by intros [= <-].
Qed.

(** X21.  [connect_to_network] never raises; it leaves every attribute
    alone except [connection_status], which it sets to "connected" or not
    at all, and which is "connected" whenever it returns [True]; it
    starts no thread and does not end the process. *)
Theorem connect_to_network_effect
    (env : environment) (ssid password : pyval) (w : world) :
  ∃ b, fst (connect_to_network env ssid password w) = Ok b ∧
       (self (snd (connect_to_network env ssid password w)) = self w ∨
        self (snd (connect_to_network env ssid password w))
        = set_connection_status "connected" (self w)) ∧
       (b = true →
        self (snd (connect_to_network env ssid password w))
        = set_connection_status "connected" (self w)) ∧
       pending (snd (connect_to_network env ssid password w)) = pending w ∧
       exited (snd (connect_to_network env ssid password w)) = exited w.
Proof.
  destruct ssid as [| | |name|];
    try (rewrite connect_to_network_not_str by done; exists false;
         by split_and!; [|left|..]).
  rewrite connect_to_network_name. cbv zeta.
  destruct (env (length (trace w)) (delete_words name));
    [|exists false; by split_and!; [|left|..]].
  destruct (argv_strings _) as [words|]; [|exists false; by split_and!; [|left|..]].
  destruct (env (S (S (length (trace w)))) words) as [s1 rc1 out1 err1|];
    [|exists false; by split_and!; [|left|..]].
  destruct (30 <? s1); [exists false; by split_and!; [|left|..]|].
  destruct (rc1 =? 0); [|exists false; by split_and!; [|left|..]].
  destruct (env (S (S (S (S _)))) _);
    [exists true|exists false]; by split_and!; [|right|..].
Qed.

(** X22.  A name in the body that is not a string (a number, a list)
    never reaches the tool: the answer is the error envelope of a failed
    join and nothing at all has happened. *)
Theorem connect_name_not_string
    (env : environment) (req : request) (d : gmap string pyval) (v : pyval) (w : world) :
  get_json req = Ok (Dict d) →
  d !! "ssid" = Some v →
  truthy v = true →
  (∀ name, v ≠ PStr name) →
  connect_wifi env req w
  = (Ok (Json [("success", JVal (PBool false));
               ("error", JVal (PStr "Failed to connect to network. Please check your credentials and try again."))]),
     w).
Proof.
  intros Hjson Hssid Htruthy Hv.
  apply (connect_failure_envelope env req d w w Hjson); rewrite Hssid; [done|].
  by apply connect_to_network_not_str.
Qed.

Lemma connect_name_not_string_witness :
  connect_wifi env_all_good post_connect_number start
  = (Ok (Json [("success", JVal (PBool false));
               ("error", JVal (PStr "Failed to connect to network. Please check your credentials and try again."))]),
     start).
Proof.
  apply (connect_name_not_string env_all_good post_connect_number
           (<["ssid" := PInt 5]> ∅) (PInt 5) start);
    [reflexivity|reflexivity|reflexivity|discriminate].
Defined.

(** X23.  With a name that is a string and a password that is not (a
    number, say), the saved profile of that name is deleted first, and
    only then the join command fails to be built: the join is never run,
    the answer is the error envelope and the attributes are as before. *)
Theorem connect_password_not_string
    (env : environment) (req : request) (d : gmap string pyval)
    (name : string) (v : pyval) (w : world) :
  get_json req = Ok (Dict d) →
  d !! "ssid" = Some (PStr name) →
  name ≠ "" →
  d !! "password" = Some v →
  truthy v = true →
  (∀ s, v ≠ PStr s) →
  fst (connect_wifi env req w)
  = Ok (Json [("success", JVal (PBool false));
              ("error", JVal (PStr "Failed to connect to network. Please check your credentials and try again."))]) ∧
  self (snd (connect_wifi env req w)) = self w ∧
  ∃ k, (1 ≤ k ≤ 2)%nat ∧
       trace (snd (connect_wifi env req w))
       = trace w ++ take k [EvRun (delete_words name) None; EvSleep 1].
Proof.
  intros Hjson Hssid Hname%nonempty_true Hpw Htruthy Hv.
  assert (argv_strings (join_cmd (PStr name) v) = None) as Hargv.
  { unfold join_cmd. rewrite Htruthy. simpl.
    destruct v as [| | |s|]; try done. by destruct (Hv s). }
  assert (∃ w1, connect_to_network env (PStr name) v w = (Ok false, w1) ∧
                self w1 = self w ∧
                ∃ k, (1 ≤ k ≤ 2)%nat ∧
                     trace w1 = trace w ++ take k [EvRun (delete_words name) None; EvSleep 1])
    as (w1 & Hrun & Hself & Htrace).
  { rewrite connect_to_network_name. cbv zeta. rewrite Hargv.
    destruct (env (length (trace w)) (delete_words name)); eexists;
      (split; [done|split; [done|]]); [ran 2%nat|ran 1%nat]. }
  rewrite (connect_failure_envelope env req d w w1 Hjson).
  - done.
  - by rewrite Hssid.
  - by rewrite Hssid, Hpw.
Qed.

Lemma connect_password_not_string_witness :
  fst (connect_wifi env_all_good post_connect_numeric_password start)
  = Ok (Json [("success", JVal (PBool false));
              ("error", JVal (PStr "Failed to connect to network. Please check your credentials and try again."))]) ∧
  self (snd (connect_wifi env_all_good post_connect_numeric_password start)) = self start ∧
  ∃ k, (1 ≤ k ≤ 2)%nat ∧
       trace (snd (connect_wifi env_all_good post_connect_numeric_password start))
       = trace start ++ take k [EvRun (delete_words "Home-5G") None; EvSleep 1].
Proof.
  apply (connect_password_not_string env_all_good post_connect_numeric_password
           (<["ssid" := PStr "Home-5G"]> (<["password" := PInt 12345678]> ∅))
           "Home-5G" (PInt 12345678) start);
    [reflexivity|reflexivity|discriminate|reflexivity|reflexivity|discriminate].
Defined.

(** X24.  POST /connect starts the thread of the shutdown only when the
    join has reported success: in every other case no thread is started
    or left pending and the process is not ended. *)
Theorem thread_only_after_success (env : environment) (req : request) (w : world) :
  no_thread w (snd (connect_wifi env req w)) ∨
  ∃ d, get_json req = Ok (Dict d) ∧
       fst (connect_to_network env (default PNone (d !! "ssid"))
              (default (PStr "") (d !! "password")) w) = Ok true.
Proof.
  destruct (get_json req) as [[d|]|e] eqn:Hjson.
  - rewrite (connect_wifi_dict env req d w Hjson). cbv zeta.
    destruct (negb _); [left; apply no_thread_refl|].
    pose proof (connect_to_network_no_thread env (default PNone (d !! "ssid"))
                  (default (PStr "") (d !! "password")) w) as Hquiet.
    destruct (connect_to_network _ _ _ w) as [[[|]|e] w1] eqn:Hrun; simpl in *;
      [right; exists d; by rewrite Hrun|by left..].
  - left. destruct (connect_without_dict env req w) as [e ->]; [|apply no_thread_refl].
    intros d. by rewrite Hjson.
  - left. destruct (connect_without_dict env req w) as [e' ->]; [|apply no_thread_refl].
    intros d. by rewrite Hjson.
Qed.

Lemma dispatch_get_status (env : environment) (w : world) :
  dispatch env (get_request "/status") w
  = (Ok (Json [("hotspot_active", JVal (PBool (is_hotspot_active (self w))));
               ("connection_status", JVal (PStr (connection_status (self w))));
               ("hotspot_name", JVal (PStr (hotspot_name (self w))))]), w).
Proof. reflexivity. Qed.

(** X25.  After a POST /connect whose join has reported success, GET
    /status reports the status "connected", with the hotspot flag and the
    hotspot name as they were, and changes nothing. *)
Theorem status_after_connect
    (env : environment) (req : request) (d : gmap string pyval)
    (name : string) (w : world) :
  get_json req = Ok (Dict d) →
  d !! "ssid" = Some (PStr name) →
  name ≠ "" →
  fst (connect_to_network env (PStr name) (default (PStr "") (d !! "password")) w)
  = Ok true →
  let w' := snd (connect_wifi env req w) in
  dispatch env (get_request "/status") w'
  = (Ok (Json [("hotspot_active", JVal (PBool (is_hotspot_active (self w))));
               ("connection_status", JVal (PStr "connected"));
               ("hotspot_name", JVal (PStr (hotspot_name (self w))))]), w').
Proof.
  intros Hjson Hssid Hname%nonempty_true Hjoin. cbv zeta.
  rewrite dispatch_get_status. do 2 f_equal.
  rewrite (connect_wifi_dict env req d w Hjson), Hssid.
  cbn [default from_option id truthy]. rewrite Hname. cbn [negb].
  destruct (connect_to_network _ _ _ w) as [r w1] eqn:Hrun. simpl in Hjoin. subst r.
  apply connect_to_network_true_self in Hrun. cbn [snd self]. by rewrite Hrun.
Qed.

Lemma status_after_connect_witness :
  let w' := snd (connect_wifi env_all_good (post_connect "Home-5G" "secret")
                   (snd (run_start env_all_good start))) in
  dispatch env_all_good (get_request "/status") w'
  = (Ok (Json [("hotspot_active", JVal (PBool true));
               ("connection_status", JVal (PStr "connected"));
               ("hotspot_name", JVal (PStr "Setup-Robot-WiFi"))]), w').
Proof.
  pose proof (status_after_connect env_all_good (post_connect "Home-5G" "secret")
                (<["ssid" := PStr "Home-5G"]> (<["password" := PStr "secret"]> ∅))
                "Home-5G" (snd (run_start env_all_good start))
                eq_refl eq_refl ltac:(discriminate) eq_refl) as H.
  vm_compute in H |- *. exact H.
Defined.

(** ** POST /connect with a join that succeeds *)

(** C2.  A POST /connect with a non-empty name whose join reports
    success is answered with the success envelope: the message,
    [connected] true and the name; the status is "connected"; and after
    the join the handler does one thing only, which is to start one
    thread and leave it pending, so that the answer does not wait for it.
    That thread is the deferred teardown: when it runs it sleeps 5 time
    units, runs the down command of the hotspot and ends the process with
    code 0, and when both of its commands can be run it marks the hotspot
    as not active. *)
Theorem connect_success
    (env : environment) (req : request) (d : gmap string pyval)
    (name : string) (w : world) :
  method req = "POST" →
  path req = "/connect" →
  get_json req = Ok (Dict d) →
  d !! "ssid" = Some (PStr name) →
  name ≠ "" →
  fst (connect_to_network env (PStr name) (default (PStr "") (d !! "password")) w)
  = Ok true →
  let w1 := snd (connect_to_network env (PStr name)
                   (default (PStr "") (d !! "password")) w) in
  let w' := snd (dispatch env req w) in
  fst (dispatch env req w)
  = Ok (Json [("success", JVal (PBool true));
              ("message", JVal (PStr ("Successfully connected to " +:+ name
                                      +:+ "! Portal will shut down in a few seconds.")));
              ("connected", JVal (PBool true));
              ("ssid", JVal (PStr name))]) ∧
  connection_status (self w') = "connected" ∧
  trace w' = trace w1 ++ [EvThread shutdown_hotspot_delayed_target] ∧
  threads_started (trace w') = S (threads_started (trace w)) ∧
  pending w' = pending w ++ [shutdown_hotspot_delayed_target] ∧
  exited w' = exited w ∧
  ∀ w0,
    let w2 := snd (run_target env shutdown_hotspot_delayed_target w0) in
    exited w2 = true ∧
    (∃ rest, trace w2
             = trace w0 ++ EvSleep 5 :: EvRun hotspot_down_words None :: rest ++ [EvExit 0]) ∧
    (runs (env (S (length (trace w0))) hotspot_down_words) →
     runs (env (S (S (length (trace w0)))) hotspot_delete_words) →
     is_hotspot_active (self w2) = false ∧
     trace w2 = trace w0 ++ [EvSleep 5; EvRun hotspot_down_words None;
                             EvRun hotspot_delete_words None; EvExit 0]).
Proof.
  intros Hmethod Hpath Hjson Hssid Hname%nonempty_true Hjoin. cbv zeta.
  pose proof (connect_to_network_no_thread env (PStr name)
                (default (PStr "") (d !! "password")) w) as (Hp & He & Ht).
  assert (dispatch env req w = connect_wifi env req w) as ->.
  { destruct req as [m p body]. simpl in Hmethod, Hpath. subst m p.
    apply dispatch_post_connect. }
  rewrite (connect_wifi_dict env req d w Hjson), Hssid.
  cbn [default from_option id truthy py_str]. rewrite Hname. cbn [negb].
  destruct (connect_to_network _ _ _ w) as [joined1 w1] eqn:Hrun.
  simpl in Hjoin, Hp, He, Ht. subst joined1.
  apply connect_to_network_true in Hrun as [Hstatus _].
  cbn [fst snd self trace pending exited].
  split_and!; [done..| |by rewrite Hp|done|].
  - unfold threads_started in *. rewrite filter_app, length_app, Ht. simpl. lia.
  - intros w0. cbn [run_target]. rewrite shutdown_hotspot_delayed_cases. cbv zeta.
    destruct (env (S (length (trace w0))) hotspot_down_words);
      [destruct (env (S (S (length (trace w0)))) hotspot_delete_words)|];
      simpl; (split_and!; [done| |by intros]).
    + by exists [EvRun hotspot_delete_words None].
    + by exists [EvRun hotspot_delete_words None].
    + by exists [].
Qed.

Lemma connect_success_witness :
  let w' := snd (dispatch env_no_address (post_connect "Home-5G" "secret") start) in
  fst (dispatch env_no_address (post_connect "Home-5G" "secret") start)
  = Ok (Json [("success", JVal (PBool true));
              ("message", JVal (PStr "Successfully connected to Home-5G! Portal will shut down in a few seconds."));
              ("connected", JVal (PBool true));
              ("ssid", JVal (PStr "Home-5G"))]) ∧
  connection_status (self w') = "connected" ∧
  trace w' =
    [EvRun (delete_words "Home-5G") None; EvSleep 1;
     EvRun (join_words "Home-5G" "secret") (Some 30); EvSleep 2;
     EvRun (show_words "wlan0") None; EvThread shutdown_hotspot_delayed_target] ∧
  threads_started (trace w') = 1%nat ∧
  pending w' = [shutdown_hotspot_delayed_target] ∧
  exited w' = false ∧
  ∀ w0,
    let w2 := snd (run_target env_no_address shutdown_hotspot_delayed_target w0) in
    exited w2 = true ∧
    (∃ rest, trace w2
             = trace w0 ++ EvSleep 5 :: EvRun hotspot_down_words None :: rest ++ [EvExit 0]) ∧
    (runs (env_no_address (S (length (trace w0))) hotspot_down_words) →
     runs (env_no_address (S (S (length (trace w0)))) hotspot_delete_words) →
     is_hotspot_active (self w2) = false ∧
     trace w2 = trace w0 ++ [EvSleep 5; EvRun hotspot_down_words None;
                             EvRun hotspot_delete_words None; EvExit 0]).
Proof.
  pose proof (connect_success env_no_address (post_connect "Home-5G" "secret")
                (<["ssid" := PStr "Home-5G"]> (<["password" := PStr "secret"]> ∅))
                "Home-5G" start eq_refl eq_refl eq_refl eq_refl
                ltac:(discriminate) eq_refl) as H.
  vm_compute in H |- *. exact H.
Defined.
